(** * Bascanka Explorer context-menu handler

    A shallow embedding of the in-process COM component of
    [src/Bascanka.Explorer.ContextMenu]: the command object
    ([BascankaCommand.cpp]), its class factory ([ClassFactory.cpp]) and the
    exported entry points ([dllmain.cpp]).

    Conventions of the embedding.
    - A 32-bit [LONG]/[HRESULT] is a [Z] in the signed range, a [DWORD]/[ULONG]
      a [Z] in the unsigned range; every operation that can leave the range
      wraps through [to_LONG] or [to_ULONG].
    - A wide string ([std::wstring], [LPWSTR]) is a [string]; the code only
      concatenates strings and tests them for emptiness.
    - An output pointer is an [out_ptr]: either [NULL] or the address of a
      slot, given with the content the slot has.
    - What the host and the operating system answer (registry calls, the
      shell item array, the process launch, the allocator) is an argument of
      the function that asks: a record of answers, one field per call.
    - What a function requests from the outside (a process launch, the
      construction or deletion of an object) is returned as a log next to its
      result. *)

From Stdlib Require Import ZArith String Ascii List Bool Lia.
Import ListNotations.

Local Open Scope string_scope.
Local Open Scope Z_scope.

(** ** Windows SDK types, constants and macros used by the sources *)

Module Win32.

Definition LONG := Z.
Definition ULONG := Z.
Definition DWORD := Z.
Definition HRESULT := Z.
Definition LSTATUS := Z.
Definition BOOL := bool.
Definition wstring := string.

(** Conversion of an integer to a signed, resp. unsigned, 32-bit value. *)
Definition to_LONG (z : Z) : LONG := (z + 2 ^ 31) mod 2 ^ 32 - 2 ^ 31.
Definition to_ULONG (z : Z) : ULONG := z mod 2 ^ 32.

Definition LONG_MAX : Z := 2 ^ 31 - 1.

(** winerror.h *)
Definition S_OK : HRESULT := 0.
Definition S_FALSE : HRESULT := 1.
Definition E_NOTIMPL : HRESULT := to_LONG 0x80004001.
Definition E_NOINTERFACE : HRESULT := to_LONG 0x80004002.
Definition E_POINTER : HRESULT := to_LONG 0x80004003.
Definition E_FAIL : HRESULT := to_LONG 0x80004005.
Definition E_OUTOFMEMORY : HRESULT := to_LONG 0x8007000E.
Definition E_INVALIDARG : HRESULT := to_LONG 0x80070057.
Definition CLASS_E_NOAGGREGATION : HRESULT := to_LONG 0x80040110.
Definition CLASS_E_CLASSNOTAVAILABLE : HRESULT := to_LONG 0x80040111.

Definition SUCCEEDED (hr : HRESULT) : bool := 0 <=? hr.
Definition FAILED (hr : HRESULT) : bool := hr <? 0.

Definition FACILITY_WIN32 : Z := 7.

(** [HRESULT_FROM_WIN32(x)]:
    [(HRESULT)(x) <= 0 ? (HRESULT)(x)
      : (HRESULT)(((x) & 0x0000FFFF) | (FACILITY_WIN32 << 16) | 0x80000000)]. *)
Definition HRESULT_FROM_WIN32 (x : DWORD) : HRESULT :=
  if to_LONG x <=? 0 then to_LONG x
  else to_LONG (Z.lor (Z.lor (Z.land x 0x0000FFFF) (Z.shiftl FACILITY_WIN32 16))
                      0x80000000).

Definition ERROR_SUCCESS : LSTATUS := 0.
Definition ERROR_FILE_NOT_FOUND : LSTATUS := 2.
Definition ERROR_MORE_DATA : LSTATUS := 234.

(** winnt.h, shobjidl_core.h, shellapi.h, winuser.h *)
Definition REG_SZ : DWORD := 1.
Definition REG_EXPAND_SZ : DWORD := 2.
Definition ECS_ENABLED : Z := 0.
Definition ECF_DEFAULT : Z := 0.
Definition SEE_MASK_DEFAULT : Z := 0.
Definition SW_SHOWNORMAL : Z := 1.
Definition SIGDN_FILESYSPATH : Z := 0x80058000.
Definition DLL_PROCESS_DETACH : DWORD := 0.
Definition DLL_PROCESS_ATTACH : DWORD := 1.

(** [InterlockedIncrement] and [InterlockedDecrement] on a [LONG]: the new
    value, modulo 2^32. The calls are atomic, so a run of the component is
    a sequence of them. *)
Definition InterlockedIncrement (x : LONG) : LONG := to_LONG (x + 1).
Definition InterlockedDecrement (x : LONG) : LONG := to_LONG (x - 1).

(** [std::wstring::empty]. *)
Definition empty (s : wstring) : bool :=
  match s with
  | EmptyString => true
  | String _ _ => false
  end.

(** [GUID] (guiddef.h); [Data4] is the array of eight bytes. *)
Record GUID := mkGUID { Data1 : Z; Data2 : Z; Data3 : Z; Data4 : list Z }.

Definition GUID_NULL : GUID := mkGUID 0 0 0 [0; 0; 0; 0; 0; 0; 0; 0].

Fixpoint bytes_eqb (a b : list Z) : bool :=
  match a, b with
  | [], [] => true
  | x :: a', y :: b' => (x =? y) && bytes_eqb a' b'
  | _, _ => false
  end.

(** [IsEqualGUID], also written [IsEqualIID], [IsEqualCLSID] and [==]. *)
Definition IsEqualGUID (a b : GUID) : bool :=
  (Data1 a =? Data1 b) && (Data2 a =? Data2 b) && (Data3 a =? Data3 b)
  && bytes_eqb (Data4 a) (Data4 b).

Definition IID_IUnknown : GUID :=
  mkGUID 0x00000000 0x0000 0x0000 [0xC0; 0x00; 0x00; 0x00; 0x00; 0x00; 0x00; 0x46].
Definition IID_IClassFactory : GUID :=
  mkGUID 0x00000001 0x0000 0x0000 [0xC0; 0x00; 0x00; 0x00; 0x00; 0x00; 0x00; 0x46].
Definition IID_IExplorerCommand : GUID :=
  mkGUID 0xa08ce4d0 0xfa25 0x44ab [0xb5; 0x7c; 0xc7; 0xb1; 0xc3; 0x23; 0xe0; 0xb9].

(** An interface pointer stored through [void** ppv]: null, or the object
    the callee hands out. *)
Inductive PVOID := nullptr | pObject.

(** An output pointer: [None] is the null pointer, [Some v] the address of
    a slot that holds [v]. *)
Definition out_ptr (A : Type) : Type := option A.

(** *** The registry, as the component sees it *)

(** The answer of [RegQueryValueExW]: its status, the type it stores in
    [*lpType] and the string the buffer holds afterwards. *)
Record RegQuery := mkRegQuery
  { status : LSTATUS; type : DWORD; buffer : wstring }.

(** An open key answers a query for a value name and a buffer size in
    bytes. *)
Definition HKEY := wstring -> DWORD -> RegQuery.

(** [HKEY_CURRENT_USER]: [RegOpenKeyExW] for a subkey gives a status and
    the key. *)
Record Registry := mkRegistry
  { RegOpenKeyExW : wstring -> LSTATUS * HKEY }.

(** *** The shell items of a selection *)

Record IShellItem := mkIShellItem
  { GetDisplayName : Z -> HRESULT * option wstring }.

Record IShellItemArray := mkIShellItemArray
  { GetCount : HRESULT * DWORD;
    GetItemAt : DWORD -> HRESULT * option IShellItem }.

(** *** The process launch *)

Record SHELLEXECUTEINFOW := mkSEI
  { fMask : Z; lpVerb : wstring; lpFile : wstring; lpParameters : wstring;
    nShow : Z }.

(** [ShellExecuteExW] answers with its result and with the value
    [GetLastError] has after the call. *)
Record Shell := mkShell
  { ShellExecuteExW : SHELLEXECUTEINFOW -> BOOL * DWORD }.

(** [SHStrDupW]: the copy of the string is stored in the output; the
    allocation of the copy is taken to succeed. *)
Definition SHStrDupW (psz : wstring) : HRESULT * option wstring :=
  (S_OK, Some psz).

End Win32.

Import Win32.

(** ** BascankaCommand.h / BascankaCommand.cpp *)

Module BascankaCommand.

Definition CONFIG_REG_KEY : wstring := "Software\Bascanka\ContextMenu".

Record t := mk { m_refCount : LONG }.

(** The constructor. *)
Definition new : t := mk 1.

Definition AddRef (this : t) : ULONG * t :=
  let r := InterlockedIncrement (m_refCount this) in
  (to_ULONG r, mk r).

(** The object after the call is [None] when [delete this] ran. *)
Definition Release (this : t) : ULONG * option t :=
  let ref := InterlockedDecrement (m_refCount this) in
  (to_ULONG ref, if ref =? 0 then None else Some (mk ref)).

(** [ppv] is the output pointer with the content of its slot; the result
    carries the slot and the object after the call. *)
Definition QueryInterface (this : t) (riid : GUID) (ppv : out_ptr PVOID)
  : HRESULT * out_ptr PVOID * t :=
  match ppv with
  | None => (E_POINTER, None, this)
  | Some _ =>
      if IsEqualGUID riid IID_IUnknown || IsEqualGUID riid IID_IExplorerCommand
      then (S_OK, Some pObject, snd (AddRef this))
      else (E_NOINTERFACE, Some nullptr, this)
  end.

Definition ReadRegString (reg : Registry) (valueName : wstring) : wstring :=
  let '(st, hKey) := RegOpenKeyExW reg CONFIG_REG_KEY in
  if negb (st =? ERROR_SUCCESS) then EmptyString
  else
    let q := hKey valueName (2 * 1024) in
    if negb (status q =? ERROR_SUCCESS) || negb (type q =? REG_SZ)
    then EmptyString
    else buffer q.

Definition GetTitle (reg : Registry) (psiItemArray : option IShellItemArray)
  : HRESULT * option wstring :=
  let displayName := ReadRegString reg "DisplayName" in
  let displayName :=
    if empty displayName then "Edit with Bascanka" else displayName in
  SHStrDupW displayName.

Definition GetIcon (reg : Registry) (psiItemArray : option IShellItemArray)
  : HRESULT * option wstring :=
  let iconPath := ReadRegString reg "IconPath" in
  let iconPath :=
    if empty iconPath then
      let iconPath := ReadRegString reg "ExePath" in
      if negb (empty iconPath) then iconPath ++ ",0" else iconPath
    else iconPath in
  if empty iconPath then (E_NOTIMPL, None)
  else SHStrDupW iconPath.

Definition GetToolTip (psiItemArray : option IShellItemArray)
  : HRESULT * option wstring :=
  (E_NOTIMPL, None).


Definition GetState (psiItemArray : option IShellItemArray) (fOkToBeSlow : BOOL)
  : HRESULT * Z :=
  (S_OK, ECS_ENABLED).

Definition GetFlags : HRESULT * Z := (S_OK, ECF_DEFAULT).

Definition dquote : wstring := String (ascii_of_nat 34) EmptyString.

(** One round of the loop of [Invoke] for the item at index [i]. *)
Definition Invoke_item (psiItemArray : IShellItemArray) (i : DWORD)
    (args : wstring) : wstring :=
  let '(hr, psi) := GetItemAt psiItemArray i in
  match SUCCEEDED hr, psi with
  | true, Some psi =>
      let '(hr, filePath) := GetDisplayName psi SIGDN_FILESYSPATH in
      match SUCCEEDED hr, filePath with
      | true, Some filePath =>
          let args := if negb (empty args) then args ++ " " else args in
          args ++ dquote ++ filePath ++ dquote
      | _, _ => args
      end
  | _, _ => args
  end.

(** [for (DWORD i = ...; i < count; i++)], for the [n] rounds left. *)
Fixpoint Invoke_loop (psiItemArray : IShellItemArray) (n : nat) (i : DWORD)
    (args : wstring) : wstring :=
  match n with
  | O => args
  | S n' =>
      Invoke_loop psiItemArray n' (i + 1) (Invoke_item psiItemArray i args)
  end.

(** The result and the launches requested with [ShellExecuteExW], in
    order. *)
Definition Invoke (reg : Registry) (os : Shell)
    (psiItemArray : option IShellItemArray)
  : HRESULT * list SHELLEXECUTEINFOW :=
  match psiItemArray with
  | None => (E_INVALIDARG, [])
  | Some psiItemArray =>
      let exePath := ReadRegString reg "ExePath" in
      if empty exePath then (E_FAIL, [])
      else
        let '(hr, count) := GetCount psiItemArray in
        if FAILED hr || (count =? 0) then (hr, [])
        else
          let args :=
            Invoke_loop psiItemArray (Z.to_nat count) 0 EmptyString in
          if empty args then (E_FAIL, [])
          else
            let sei := mkSEI SEE_MASK_DEFAULT "open" exePath args SW_SHOWNORMAL in
            let '(ok, lastError) := ShellExecuteExW os sei in
            if negb ok then (HRESULT_FROM_WIN32 lastError, [sei])
            else (S_OK, [sei])
  end.

Definition EnumSubCommands : HRESULT * option unit := (E_NOTIMPL, None).

End BascankaCommand.

(** ** Objects on the heap *)

Inductive class := clsBascankaCommand | clsClassFactory.

(** What [new] and [delete] did during a call. *)
Inductive heap_event :=
| Constructed (c : class)
| Deleted (c : class).

(** ** ClassFactory.h / ClassFactory.cpp *)

Module ClassFactory.

Record t := mk { m_refCount : LONG }.

(** The constructor, with the global [g_dllRefCount] before and after. *)
Definition new (g_dllRefCount : LONG) : t * LONG :=
  (mk 1, InterlockedIncrement g_dllRefCount).

Definition AddRef (this : t) : ULONG * t :=
  let r := InterlockedIncrement (m_refCount this) in
  (to_ULONG r, mk r).

Definition Release (this : t) (g_dllRefCount : LONG) : ULONG * option t * LONG :=
  let ref := InterlockedDecrement (m_refCount this) in
  if ref =? 0
  then (to_ULONG ref, None, InterlockedDecrement g_dllRefCount)
  else (to_ULONG ref, Some (mk ref), g_dllRefCount).

Definition QueryInterface (this : t) (riid : GUID) (ppv : out_ptr PVOID)
  : HRESULT * out_ptr PVOID * t :=
  match ppv with
  | None => (E_POINTER, None, this)
  | Some _ =>
      if IsEqualGUID riid IID_IUnknown || IsEqualGUID riid IID_IClassFactory
      then (S_OK, Some pObject, snd (AddRef this))
      else (E_NOINTERFACE, Some nullptr, this)
  end.

(** [alloc] tells whether [new (std::nothrow)] yields an object. The result
    carries the slot of [ppv], the command object when one is alive after the
    call, and the heap events. *)
Definition CreateInstance (alloc : bool) (pUnkOuter : PVOID) (riid : GUID)
    (ppv : out_ptr PVOID)
  : HRESULT * out_ptr PVOID * option BascankaCommand.t * list heap_event :=
  match pUnkOuter with
  | pObject => (CLASS_E_NOAGGREGATION, ppv, None, [])
  | nullptr =>
      if negb alloc then (E_OUTOFMEMORY, ppv, None, [])
      else
        let pCmd := BascankaCommand.new in
        let '(hr, ppv, pCmd) := BascankaCommand.QueryInterface pCmd riid ppv in
        let '(_, pCmd) := BascankaCommand.Release pCmd in
        (hr, ppv, pCmd,
         Constructed clsBascankaCommand
           :: match pCmd with
              | None => [Deleted clsBascankaCommand]
              | Some _ => []
              end)
  end.

Definition LockServer (fLock : BOOL) (g_dllRefCount : LONG) : HRESULT * LONG :=
  (S_OK,
   if fLock then InterlockedIncrement g_dllRefCount
   else InterlockedDecrement g_dllRefCount).

End ClassFactory.

(** ** dllmain.cpp *)

Module Dll.

(** The globals of the module. *)
Record globals := mkGlobals
  { g_dllRefCount : LONG;
    g_CLSID_BascankaCommand : GUID;
    g_hModule : option Z }.

Definition initial : globals := mkGlobals 0 GUID_NULL None.

(** [CLSIDFromString] answers with its result and the identifier it stores. *)
Record Ole := mkOle { CLSIDFromString : wstring -> HRESULT * GUID }.

Definition ReadCLSIDFromRegistry (ole : Ole) (reg : Registry) (g : globals)
  : bool * globals :=
  let '(st, hKey) := RegOpenKeyExW reg "Software\Bascanka\ContextMenu" in
  if negb (st =? ERROR_SUCCESS) then (false, g)
  else
    let q := hKey "CLSID" (2 * 128) in
    if negb (status q =? ERROR_SUCCESS) || negb (type q =? REG_SZ)
    then (false, g)
    else
      let '(hr, clsid) := CLSIDFromString ole (buffer q) in
      (SUCCEEDED hr,
       mkGlobals (g_dllRefCount g) clsid (g_hModule g)).

Definition DllMain (ole : Ole) (reg : Registry) (g : globals) (hModule : Z)
    (ul_reason_for_call : DWORD) : BOOL * globals :=
  if ul_reason_for_call =? DLL_PROCESS_ATTACH then
    let g := mkGlobals (g_dllRefCount g) (g_CLSID_BascankaCommand g) (Some hModule) in
    (true, snd (ReadCLSIDFromRegistry ole reg g))
  else (true, g).

(** The identifier [DllGetClassObject] compares with: the loaded one, read
    again when it is still the null identifier. *)
Definition reload (ole : Ole) (reg : Registry) (g : globals) : globals :=
  if IsEqualGUID (g_CLSID_BascankaCommand g) GUID_NULL
  then snd (ReadCLSIDFromRegistry ole reg g)
  else g.

Definition DllGetClassObject (ole : Ole) (reg : Registry) (alloc : bool)
    (g : globals) (rclsid riid : GUID) (ppv : out_ptr PVOID)
  : HRESULT * out_ptr PVOID * option ClassFactory.t * globals * list heap_event :=
  match ppv with
  | None => (E_POINTER, None, None, g, [])
  | Some _ =>
      let ppv := Some nullptr in
      let g := reload ole reg g in
      if negb (IsEqualGUID rclsid (g_CLSID_BascankaCommand g))
      then (CLASS_E_CLASSNOTAVAILABLE, ppv, None, g, [])
      else if negb alloc then (E_OUTOFMEMORY, ppv, None, g, [])
      else
        let '(pFactory, refs) := ClassFactory.new (g_dllRefCount g) in
        let '(hr, ppv, pFactory) := ClassFactory.QueryInterface pFactory riid ppv in
        let '(_, pFactory, refs) := ClassFactory.Release pFactory refs in
        (hr, ppv, pFactory,
         mkGlobals refs (g_CLSID_BascankaCommand g) (g_hModule g),
         Constructed clsClassFactory
           :: match pFactory with
              | None => [Deleted clsClassFactory]
              | Some _ => []
              end)
  end.

Definition DllCanUnloadNow (g : globals) : HRESULT :=
  if 0 <? g_dllRefCount g then S_FALSE else S_OK.

End Dll.

(** ** Reference counting as the host drives it *)

Module Lifetime.

(** A call of the host on the [IUnknown] part of an object. *)
Inductive ref_call := CallAddRef | CallRelease.

(** The [IUnknown] reference counting of a class: its counter, the object
    after [AddRef], and the object after [Release] ([None] when the call
    deleted it). *)
Class RefCounted (T : Type) := mkRefCounted
  { count : T -> LONG;
    addref : T -> T;
    release : T -> option T }.

#[global] Instance BascankaCommand_RefCounted : RefCounted BascankaCommand.t :=
  {| count := BascankaCommand.m_refCount;
     addref := fun this => snd (BascankaCommand.AddRef this);
     release := fun this => snd (BascankaCommand.Release this) |}.

(** A factory is taken together with the global [g_dllRefCount], which its
    [Release] updates when it deletes the object. *)
#[global] Instance ClassFactory_RefCounted : RefCounted (ClassFactory.t * LONG) :=
  {| count := fun s => ClassFactory.m_refCount (fst s);
     addref := fun s => (snd (ClassFactory.AddRef (fst s)), snd s);
     release := fun s =>
       match ClassFactory.Release (fst s) (snd s) with
       | (_, Some this, g) => Some (this, g)
       | (_, None, _) => None
       end |}.

Inductive lifetime (T : Type) :=
| Live (o : T)
| Destroyed.

Arguments Live {T} o.
Arguments Destroyed {T}.

(** One call; [None] is a call through a pointer to a deleted object, which
    has no defined behaviour. *)
Definition step {T} `{RefCounted T} (s : lifetime T) (c : ref_call)
  : option (lifetime T) :=
  match s with
  | Destroyed => None
  | Live o =>
      match c with
      | CallAddRef => Some (Live (addref o))
      | CallRelease =>
          Some match release o with
               | Some o' => Live o'
               | None => Destroyed
               end
      end
  end.

Fixpoint run {T} `{RefCounted T} (s : lifetime T) (cs : list ref_call)
  : option (lifetime T) :=
  match cs with
  | [] => Some s
  | c :: cs' =>
      match step s c with
      | Some s' => run s' cs'
      | None => None
      end
  end.

(** The number of references the callers hold after a call, when they hold
    [k] before it. *)
Definition held_after (k : Z) (c : ref_call) : Z :=
  match c with
  | CallAddRef => k + 1
  | CallRelease => k - 1
  end.

Definition held (k : Z) (cs : list ref_call) : Z := fold_left held_after cs k.

(** The calls are symmetric for callers that hold [k] references: every call
    is made through a reference that is held, so every [Release] gives up a
    reference taken by an earlier [AddRef] or by the construction. *)
Fixpoint symmetric (k : Z) (cs : list ref_call) : bool :=
  match cs with
  | [] => true
  | c :: cs' => (0 <? k) && symmetric (held_after k c) cs'
  end.

(** No more than [LONG_MAX] references are held at any point. *)
Fixpoint within_LONG (k : Z) (cs : list ref_call) : bool :=
  match cs with
  | [] => k <=? LONG_MAX
  | c :: cs' => (k <=? LONG_MAX) && within_LONG (held_after k c) cs'
  end.

End Lifetime.

(** ** The component in a host session *)

Module Session.

(** A request of the host to a command object. *)
Inductive request :=
| ReqGetTitle (psiItemArray : option IShellItemArray)
| ReqGetIcon (psiItemArray : option IShellItemArray)
| ReqInvoke (psiItemArray : option IShellItemArray).

(** The status, the string stored in the output and the launches requested. *)
Definition response : Type := HRESULT * option wstring * list SHELLEXECUTEINFOW.

(** The command object serves a request with the globals [g] of the module,
    the registry as it is at the time of the request and the shell. *)
Definition serve (g : Dll.globals) (reg : Registry) (os : Shell) (req : request)
  : response :=
  match req with
  | ReqGetTitle psiItemArray => (BascankaCommand.GetTitle reg psiItemArray, [])
  | ReqGetIcon psiItemArray => (BascankaCommand.GetIcon reg psiItemArray, [])
  | ReqInvoke psiItemArray =>
      let '(hr, launches) := BascankaCommand.Invoke reg os psiItemArray in
      (hr, None, launches)
  end.

(** A run of the component: the registry when the module is loaded and the
    registry when the request is made. *)
Record run := mkRun { at_load : Registry; at_call : Registry }.

Definition respond (ole : Dll.Ole) (os : Shell) (hModule : Z) (r : run)
    (req : request) : response :=
  let g := snd (Dll.DllMain ole (at_load r) Dll.initial hModule DLL_PROCESS_ATTACH) in
  serve g (at_call r) os req.

(** Two registries hold the same configuration: the key opens with the same
    status and the three settings are answered alike. *)
Definition same_settings (r1 r2 : Registry) : Prop :=
  fst (RegOpenKeyExW r1 BascankaCommand.CONFIG_REG_KEY)
  = fst (RegOpenKeyExW r2 BascankaCommand.CONFIG_REG_KEY)
  /\ forall valueName cbData,
      In valueName ["DisplayName"; "ExePath"; "IconPath"] ->
      snd (RegOpenKeyExW r1 BascankaCommand.CONFIG_REG_KEY) valueName cbData
      = snd (RegOpenKeyExW r2 BascankaCommand.CONFIG_REG_KEY) valueName cbData.

End Session.

(** ** Vocabulary of the specification *)

Module Spec.

(** The setting [valueName] as persisted: [Some s] when the key opens and the
    query for the value succeeds with a string [s] of type [REG_SZ], [None]
    (the setting is missing) in every other case. *)
Definition setting (reg : Registry) (valueName : wstring) : option wstring :=
  let '(st, hKey) := RegOpenKeyExW reg BascankaCommand.CONFIG_REG_KEY in
  let q := hKey valueName 2048 in
  if (st =? ERROR_SUCCESS) && (status q =? ERROR_SUCCESS) && (type q =? REG_SZ)
  then Some (buffer q)
  else None.

Definition missing_or_empty (reg : Registry) (valueName : wstring) : Prop :=
  setting reg valueName = None \/ setting reg valueName = Some EmptyString.

(** The setting is set to the non-empty string [s]. *)
Definition set_to (reg : Registry) (valueName : wstring) (s : wstring) : Prop :=
  setting reg valueName = Some s /\ s <> EmptyString.

(** The file-system path the item at index [i] of a selection yields, if
    any. *)
Definition yielded_path (sel : IShellItemArray) (i : DWORD) : option wstring :=
  match GetItemAt sel i with
  | (hr, Some psi) =>
      if SUCCEEDED hr then
        match GetDisplayName psi SIGDN_FILESYSPATH with
        | (hr', Some filePath) => if SUCCEEDED hr' then Some filePath else None
        | (_, None) => None
        end
      else None
  | (_, None) => None
  end.

(** The paths yielded by the [n] items from index [i] on, in selection
    order. *)
Fixpoint selected_paths (sel : IShellItemArray) (n : nat) (i : DWORD)
  : list wstring :=
  match n with
  | O => []
  | S n' =>
      match yielded_path sel i with
      | Some p => p :: selected_paths sel n' (i + 1)
      | None => selected_paths sel n' (i + 1)
      end
  end.

(** A path enclosed in double quotes. *)
Definition quoted (p : wstring) : wstring :=
  BascankaCommand.dquote ++ p ++ BascankaCommand.dquote.

(** The quoted paths, consecutive ones separated by a single space. *)
Fixpoint quote_join (paths : list wstring) : wstring :=
  match paths with
  | [] => EmptyString
  | p :: rest =>
      match rest with
      | [] => quoted p
      | _ :: _ => quoted p ++ " " ++ quote_join rest
      end
  end.

(** The selection is not empty: the count query succeeds with a count that
    is not zero. *)
Definition non_empty (sel : IShellItemArray) : Prop :=
  SUCCEEDED (fst (GetCount sel)) = true /\ 0 < snd (GetCount sel) < 2 ^ 32.

End Spec.

(** ** Sample hosts *)

Module Sample.

Fixpoint lookup (valueName : wstring) (values : list (wstring * (DWORD * wstring)))
  : option (DWORD * wstring) :=
  match values with
  | [] => None
  | (n, v) :: rest => if (n =? valueName)%string then Some v else lookup valueName rest
  end.

(** A key with the given values: a query fails with [ERROR_FILE_NOT_FOUND]
    for a name the key lacks and with [ERROR_MORE_DATA] for a string that,
    with its terminator, does not fit the buffer. *)
Definition key_of (values : list (wstring * (DWORD * wstring))) : HKEY :=
  fun valueName cbData =>
    match lookup valueName values with
    | None => mkRegQuery ERROR_FILE_NOT_FOUND 0 EmptyString
    | Some (ty, data) =>
        if 2 * (Z.of_nat (String.length data) + 1) <=? cbData
        then mkRegQuery ERROR_SUCCESS ty data
        else mkRegQuery ERROR_MORE_DATA ty EmptyString
    end.

(** A registry whose only key is [Software\Bascanka\ContextMenu]. *)
Definition registry_of (values : list (wstring * (DWORD * wstring))) : Registry :=
  mkRegistry (fun subKey =>
    if (subKey =? "Software\Bascanka\ContextMenu")%string
    then (ERROR_SUCCESS, key_of values)
    else (ERROR_FILE_NOT_FOUND, key_of [])).

(** A registry without the key. *)
Definition no_registry : Registry :=
  mkRegistry (fun _ => (ERROR_FILE_NOT_FOUND, key_of [])).

(** A shell item with a file-system path, or one without (the query for its
    path fails). *)
Definition item_of (path : option wstring) : IShellItem :=
  mkIShellItem (fun _ =>
    match path with
    | Some p => (S_OK, Some p)
    | None => (E_INVALIDARG, None)
    end).

Definition selection_of (items : list (option wstring)) : IShellItemArray :=
  mkIShellItemArray
    (S_OK, Z.of_nat (List.length items))
    (fun i =>
       match nth_error items (Z.to_nat i) with
       | Some path => (S_OK, Some (item_of path))
       | None => (E_FAIL, None)
       end).

(** A shell whose launches succeed, and one whose launches fail with the
    error [err]. *)
Definition shell_ok : Shell := mkShell (fun _ => (true, 0)).
Definition shell_failing (err : DWORD) : Shell := mkShell (fun _ => (false, err)).

Definition ole_none : Dll.Ole := Dll.mkOle (fun _ => (E_INVALIDARG, GUID_NULL)).

Definition exe : wstring := "C:\Program Files\Bascanka\Bascanka.exe".

Definition configured : Registry :=
  registry_of [("DisplayName", (REG_SZ, "Edit with Bascanka 2"));
               ("ExePath", (REG_SZ, exe))].

(** The configuration after the display name was rewritten. *)
Definition reconfigured : Registry :=
  registry_of [("DisplayName", (REG_SZ, "Open in editor"));
               ("ExePath", (REG_SZ, exe))].

(** Two runs loaded with the same configuration; in the second one the
    configuration is rewritten before the request. *)
Definition run_unchanged : Session.run := Session.mkRun configured configured.
Definition run_changed : Session.run := Session.mkRun configured reconfigured.

(** As many [AddRef] calls as [LONG_MAX]. *)
Definition LONG_MAX_AddRefs : list Lifetime.ref_call :=
  repeat Lifetime.CallAddRef (Z.to_nat LONG_MAX).

(** A registered component: the registry holds its class identifier, and
    [CLSIDFromString] parses that string. *)
Definition clsid_string : wstring := "{5B1E3F0A-9C47-4D52-8E21-7A60C3D9F4B8}".

Definition clsid : GUID :=
  mkGUID 0x5B1E3F0A 0x9C47 0x4D52 [0x8E; 0x21; 0x7A; 0x60; 0xC3; 0xD9; 0xF4; 0xB8].

Definition registered : Registry :=
  registry_of [("CLSID", (REG_SZ, clsid_string));
               ("DisplayName", (REG_SZ, "Edit with Bascanka 2"));
               ("ExePath", (REG_SZ, exe))].

Definition ole_parse : Dll.Ole :=
  Dll.mkOle (fun s =>
    if (s =? clsid_string)%string then (S_OK, clsid) else (E_INVALIDARG, GUID_NULL)).

End Sample.

(** ** The host's use of the class object *)

Module Hosting.





(** What a host does to obtain a command object: it asks for the class
    object as [IClassFactory], has it create an instance as
    [IExplorerCommand] and releases the factory. The result is the command
    object with the globals afterwards, or [None] when a step fails. *)
Definition create_command (ole : Dll.Ole) (reg : Registry) (g : Dll.globals)
    (rclsid : GUID) : option (BascankaCommand.t * Dll.globals) :=
  match Dll.DllGetClassObject ole reg true g rclsid IID_IClassFactory (Some nullptr) with
  | (_, _, Some pFactory, g, _) =>
      match ClassFactory.CreateInstance true nullptr IID_IExplorerCommand (Some nullptr) with
      | (_, _, Some pCmd, _) =>
          let '(_, _, refs) := ClassFactory.Release pFactory (Dll.g_dllRefCount g) in
          Some (pCmd,
                Dll.mkGlobals refs (Dll.g_CLSID_BascankaCommand g) (Dll.g_hModule g))
      | (_, _, None, _) => None
      end
  | (_, _, None, _, _) => None
  end.

End Hosting.

(** * Properties *)

(** ** Status codes *)

Lemma to_LONG_id (z : Z) : - 2 ^ 31 <= z < 2 ^ 31 -> to_LONG z = z.
Proof.
  intros Hz. unfold to_LONG.
  rewrite Z.mod_small by lia. lia.
Qed.

Lemma to_LONG_high (z : Z) : 2 ^ 31 <= z < 2 ^ 32 -> to_LONG z = z - 2 ^ 32.
Proof.
  intros Hz. unfold to_LONG.
  replace (z + 2 ^ 31) with (z - 2 ^ 31 + 1 * 2 ^ 32) by lia.
  rewrite Z.mod_add by lia.
  rewrite Z.mod_small by lia. lia.
Qed.

Lemma to_LONG_idem_add (x y : Z) : to_LONG (to_LONG x + y) = to_LONG (x + y).
Proof.
  unfold to_LONG.
  replace ((x + 2 ^ 31) mod 2 ^ 32 - 2 ^ 31 + y + 2 ^ 31)
    with ((x + 2 ^ 31) mod 2 ^ 32 + y) by lia.
  rewrite Zplus_mod_idemp_l.
  replace (x + 2 ^ 31 + y) with (x + y + 2 ^ 31) by lia.
  reflexivity.
Qed.

Lemma FAILED_codes :
  FAILED E_FAIL = true /\ FAILED E_INVALIDARG = true /\ FAILED E_NOTIMPL = true
  /\ FAILED CLASS_E_CLASSNOTAVAILABLE = true /\ FAILED CLASS_E_NOAGGREGATION = true
  /\ FAILED S_OK = false.
Proof. repeat split; reflexivity. Qed.

(** A Win32 error code other than [ERROR_SUCCESS] maps to a failure status. *)
Lemma HRESULT_FROM_WIN32_failed (err : DWORD) :
  0 < err < 2 ^ 32 -> FAILED (HRESULT_FROM_WIN32 err) = true.
Proof.
  intros Herr. unfold HRESULT_FROM_WIN32, FAILED.
  destruct (to_LONG err <=? 0) eqn:Hneg.
  - apply Z.leb_le in Hneg. apply Z.ltb_lt.
    destruct (Z.lt_ge_cases err (2 ^ 31)) as [Hlow | Hhigh].
    + rewrite to_LONG_id in Hneg by lia. lia.
    + rewrite to_LONG_high by lia. lia.
  - set (low := Z.lor (Z.land err 65535) (Z.shiftl FACILITY_WIN32 16)).
    assert (Hland : 0 <= Z.land err 65535) by (apply Z.land_nonneg; lia).
    assert (Hlow : 0 <= low) by (apply Z.lor_nonneg; split; [exact Hland | discriminate]).
    assert (Hlog : Z.log2 (Z.lor low 2147483648) = 31).
    { rewrite Z.log2_lor by (try exact Hlow; discriminate).
      assert (Hl : Z.log2 low <= 18).
      { unfold low. rewrite Z.log2_lor by (try exact Hland; discriminate).
        apply Z.max_lub; [| discriminate].
        transitivity (Z.log2 65535); [| discriminate].
        apply Z.log2_le_mono.
        change 65535 with (Z.ones 16).
        rewrite Z.land_ones by lia.
        assert (0 <= err mod 2 ^ 16 < 2 ^ 16) by (apply Z.mod_pos_bound; lia).
        change (Z.ones 16) with (2 ^ 16 - 1). lia. }
      change (Z.log2 2147483648) with 31. lia. }
    assert (Hpos : 0 < Z.lor low 2147483648).
    { assert (0 <= Z.lor low 2147483648)
        by (apply Z.lor_nonneg; split; [exact Hlow | discriminate]).
      destruct (Z.eq_dec (Z.lor low 2147483648) 0) as [E | E]; [| lia].
      rewrite E in Hlog. discriminate. }
    pose proof (Z.log2_spec _ Hpos) as Hspec. rewrite Hlog in Hspec.
    apply Z.ltb_lt. rewrite to_LONG_high by (change (Z.succ 31) with 32 in Hspec; lia).
    change (Z.succ 31) with 32 in Hspec. lia.
Qed.

(** ** Reading the settings *)

Lemma ReadRegString_setting (reg : Registry) (valueName : wstring) :
  BascankaCommand.ReadRegString reg valueName
  = match Spec.setting reg valueName with
    | Some s => s
    | None => EmptyString
    end.
Proof.
  unfold BascankaCommand.ReadRegString, Spec.setting.
  destruct (RegOpenKeyExW reg BascankaCommand.CONFIG_REG_KEY) as [st hKey].
  change (2 * 1024) with 2048.
  destruct (st =? ERROR_SUCCESS); simpl; [| reflexivity].
  destruct (status (hKey valueName 2048) =? ERROR_SUCCESS); simpl; [| reflexivity].
  destruct (type (hKey valueName 2048) =? REG_SZ); reflexivity.
Qed.

Lemma ReadRegString_missing_or_empty (reg : Registry) (valueName : wstring) :
  Spec.missing_or_empty reg valueName ->
  BascankaCommand.ReadRegString reg valueName = EmptyString.
Proof.
  intros [H | H]; rewrite ReadRegString_setting, H; reflexivity.
Qed.

Lemma ReadRegString_set_to (reg : Registry) (valueName s : wstring) :
  Spec.set_to reg valueName s ->
  BascankaCommand.ReadRegString reg valueName = s /\ empty s = false.
Proof.
  intros [H Hs]. rewrite ReadRegString_setting, H. split; [reflexivity |].
  destruct s; [contradiction | reflexivity].
Qed.

Lemma empty_append (s t : wstring) : empty t = false -> empty (s ++ t) = false.
Proof.
  intros Ht. destruct s; simpl; [exact Ht | reflexivity].
Qed.

(** ** Title, icon, state and flags *)

(** C4. [GetTitle] returns the fallback label "Edit with Bascanka" when the
    display-name setting is missing or empty, and the persisted display name
    otherwise. *)
Theorem GetTitle_fallback_or_setting (reg : Registry)
    (psiItemArray : option IShellItemArray) :
  (Spec.missing_or_empty reg "DisplayName" ->
   BascankaCommand.GetTitle reg psiItemArray = (S_OK, Some "Edit with Bascanka"))
  /\ (forall s, Spec.set_to reg "DisplayName" s ->
      BascankaCommand.GetTitle reg psiItemArray = (S_OK, Some s)).
Proof.
  split.
  - intros H. unfold BascankaCommand.GetTitle.
    rewrite (ReadRegString_missing_or_empty _ _ H). reflexivity.
  - intros s H. unfold BascankaCommand.GetTitle.
    destruct (ReadRegString_set_to _ _ _ H) as [-> Hs].
    rewrite Hs. reflexivity.
Qed.

Lemma GetTitle_fallback_or_setting_witness :
  BascankaCommand.GetTitle Sample.no_registry None = (S_OK, Some "Edit with Bascanka")
  /\ BascankaCommand.GetTitle Sample.configured None
     = (S_OK, Some "Edit with Bascanka 2").
Proof.
  split.
  - apply (proj1 (GetTitle_fallback_or_setting Sample.no_registry None)).
    left. reflexivity.
  - apply (proj2 (GetTitle_fallback_or_setting Sample.configured None)).
    split; [reflexivity | discriminate].
Defined.

(** C5. [GetIcon] returns the executable path followed by ",0" when the
    icon-path setting is missing or empty and the executable path is set;
    when both are missing or empty it stores null in the output and returns
    the non-success status [E_NOTIMPL]. *)
Theorem GetIcon_fallback (reg : Registry) (psiItemArray : option IShellItemArray) :
  (forall exePath,
      Spec.missing_or_empty reg "IconPath" ->
      Spec.set_to reg "ExePath" exePath ->
      BascankaCommand.GetIcon reg psiItemArray = (S_OK, Some (exePath ++ ",0")))
  /\ (Spec.missing_or_empty reg "IconPath" ->
      Spec.missing_or_empty reg "ExePath" ->
      BascankaCommand.GetIcon reg psiItemArray = (E_NOTIMPL, None)
      /\ SUCCEEDED E_NOTIMPL = false).
Proof.
  split.
  - intros exePath Hicon Hexe. unfold BascankaCommand.GetIcon.
    rewrite (ReadRegString_missing_or_empty _ _ Hicon).
    destruct (ReadRegString_set_to _ _ _ Hexe) as [-> Hne].
    simpl. rewrite Hne. simpl.
    rewrite empty_append by reflexivity. reflexivity.
  - intros Hicon Hexe. unfold BascankaCommand.GetIcon.
    rewrite (ReadRegString_missing_or_empty _ _ Hicon).
    rewrite (ReadRegString_missing_or_empty _ _ Hexe).
    split; reflexivity.
Qed.

Lemma GetIcon_fallback_witness :
  BascankaCommand.GetIcon Sample.configured None
  = (S_OK, Some (Sample.exe ++ ",0"))
  /\ BascankaCommand.GetIcon Sample.no_registry None = (E_NOTIMPL, None)
  /\ SUCCEEDED E_NOTIMPL = false.
Proof.
  split.
  - apply (proj1 (GetIcon_fallback Sample.configured None)).
    + left. reflexivity.
    + split; [reflexivity | discriminate].
  - apply (proj2 (GetIcon_fallback Sample.no_registry None)).
    + left. reflexivity.
    + left. reflexivity.
Defined.

(** C8. [GetState] stores [ECS_ENABLED] and returns success for every
    selection, the null one included, and every [fOkToBeSlow]; [GetFlags]
    stores [ECF_DEFAULT] and returns success. *)
Theorem GetState_GetFlags_constant :
  (forall (psiItemArray : option IShellItemArray) (fOkToBeSlow : BOOL),
      BascankaCommand.GetState psiItemArray fOkToBeSlow = (S_OK, ECS_ENABLED))
  /\ BascankaCommand.GetFlags = (S_OK, ECF_DEFAULT)
  /\ SUCCEEDED S_OK = true.
Proof.
  split; [| split].
  - intros psiItemArray fOkToBeSlow. reflexivity.
  - reflexivity.
  - reflexivity.
Qed.

(** ** The argument string of [Invoke] *)

Lemma append_assoc (a b c : wstring) : ((a ++ b) ++ c)%string = (a ++ b ++ c)%string.
Proof.
  induction a as [| ch a IH]; simpl; [reflexivity | now rewrite IH].
Qed.

Lemma quoted_not_empty (p : wstring) : empty (Spec.quoted p) = false.
Proof. reflexivity. Qed.

Lemma quote_join_not_empty (paths : list wstring) :
  paths <> [] -> empty (Spec.quote_join paths) = false.
Proof.
  destruct paths as [| p [| p' rest]]; [contradiction | reflexivity | reflexivity].
Qed.

(** One round of the loop appends the quoted path of an item that yields
    one, after a space when the string is not empty, and leaves the string
    as it is for an item that yields none. *)
Lemma Invoke_item_yielded (sel : IShellItemArray) (i : DWORD) (args : wstring) :
  BascankaCommand.Invoke_item sel i args
  = match Spec.yielded_path sel i with
    | Some p => ((if empty args then args else args ++ " ") ++ Spec.quoted p)%string
    | None => args
    end.
Proof.
  unfold BascankaCommand.Invoke_item, Spec.yielded_path.
  destruct (GetItemAt sel i) as [hr [psi |]].
  - destruct (SUCCEEDED hr); [| reflexivity].
    destruct (GetDisplayName psi SIGDN_FILESYSPATH) as [hr' [filePath |]].
    + destruct (SUCCEEDED hr'); [| reflexivity].
      destruct (empty args); reflexivity.
    + destruct (SUCCEEDED hr'); reflexivity.
  - destruct (SUCCEEDED hr); reflexivity.
Qed.

Lemma Invoke_loop_started (sel : IShellItemArray) (n : nat) :
  forall (i : DWORD) (args : wstring),
    empty args = false ->
    BascankaCommand.Invoke_loop sel n i args
    = match Spec.selected_paths sel n i with
      | [] => args
      | _ :: _ => (args ++ " " ++ Spec.quote_join (Spec.selected_paths sel n i))%string
      end.
Proof.
  induction n as [| n IH]; intros i args Hargs; simpl; [reflexivity |].
  rewrite Invoke_item_yielded.
  destruct (Spec.yielded_path sel i) as [p |]; [| now apply IH].
  rewrite Hargs.
  rewrite IH by (apply empty_append, quoted_not_empty).
  destruct (Spec.selected_paths sel n (i + 1)) as [| q rest].
  - simpl. apply append_assoc.
  - rewrite !append_assoc. reflexivity.
Qed.

(** The loop builds the quoted, space-separated list of the yielded paths. *)
Lemma Invoke_loop_quote_join (sel : IShellItemArray) (n : nat) :
  forall i : DWORD,
    BascankaCommand.Invoke_loop sel n i EmptyString
    = Spec.quote_join (Spec.selected_paths sel n i).
Proof.
  induction n as [| n IH]; intros i; simpl; [reflexivity |].
  rewrite Invoke_item_yielded.
  destruct (Spec.yielded_path sel i) as [p |]; [| now apply IH].
  simpl (empty EmptyString). cbv iota.
  change (EmptyString ++ Spec.quoted p)%string with (Spec.quoted p).
  rewrite Invoke_loop_started by apply quoted_not_empty.
  destruct (Spec.selected_paths sel n (i + 1)); reflexivity.
Qed.

(** ** Results of [Invoke] *)

(** With the executable path set and a non-empty selection of which an item
    yields a path, [Invoke] makes one launch request and reports what the
    shell answers. *)
Lemma Invoke_launch (reg : Registry) (os : Shell) (sel : IShellItemArray)
    (exePath : wstring) :
  Spec.set_to reg "ExePath" exePath ->
  Spec.non_empty sel ->
  Spec.selected_paths sel (Z.to_nat (snd (GetCount sel))) 0 <> [] ->
  let sei :=
    mkSEI SEE_MASK_DEFAULT "open" exePath
      (Spec.quote_join (Spec.selected_paths sel (Z.to_nat (snd (GetCount sel))) 0))
      SW_SHOWNORMAL in
  BascankaCommand.Invoke reg os (Some sel)
  = (if fst (ShellExecuteExW os sei) then S_OK
     else HRESULT_FROM_WIN32 (snd (ShellExecuteExW os sei)),
     [sei]).
Proof.
  intros Hexe [Hhr Hcount] Hpaths sei. unfold BascankaCommand.Invoke.
  destruct (ReadRegString_set_to _ _ _ Hexe) as [-> Hne]. rewrite Hne.
  destruct (GetCount sel) as [hr count]. simpl in Hhr, Hcount, Hpaths, sei.
  assert (Hf : FAILED hr = false).
  { unfold SUCCEEDED in Hhr. unfold FAILED. apply Z.leb_le in Hhr. apply Z.ltb_ge. lia. }
  assert (Hz : (count =? 0) = false) by (apply Z.eqb_neq; lia).
  rewrite Hf, Hz. simpl orb. cbv iota.
  rewrite Invoke_loop_quote_join.
  rewrite (quote_join_not_empty _ Hpaths).
  fold sei. destruct (ShellExecuteExW os sei) as [ok lastError].
  destruct ok; reflexivity.
Qed.

(** [Invoke] never makes more than one launch request, and the request it
    makes decides its result. *)
Lemma Invoke_launch_log (reg : Registry) (os : Shell)
    (psiItemArray : option IShellItemArray) (sei : SHELLEXECUTEINFOW) :
  In sei (snd (BascankaCommand.Invoke reg os psiItemArray)) ->
  BascankaCommand.Invoke reg os psiItemArray
  = (if fst (ShellExecuteExW os sei) then S_OK
     else HRESULT_FROM_WIN32 (snd (ShellExecuteExW os sei)),
     [sei]).
Proof.
  unfold BascankaCommand.Invoke.
  destruct psiItemArray as [sel |]; [| intros []].
  destruct (empty (BascankaCommand.ReadRegString reg "ExePath")); [intros [] |].
  destruct (GetCount sel) as [hr count].
  destruct (FAILED hr || (count =? 0)); [intros [] |].
  destruct (empty _); [intros [] |].
  match goal with
  | |- context [ShellExecuteExW os ?s] => set (sei0 := s)
  end.
  destruct (ShellExecuteExW os sei0) as [ok lastError] eqn:Hos.
  destruct ok; simpl; intros [<- | []]; rewrite Hos; reflexivity.
Qed.

(** With the executable path set, a selection whose count query succeeds
    with zero items makes [Invoke] return the status of that query, without
    a launch. *)
Lemma Invoke_zero_count (reg : Registry) (os : Shell) (sel : IShellItemArray)
    (exePath : wstring) :
  Spec.set_to reg "ExePath" exePath ->
  snd (GetCount sel) = 0 ->
  BascankaCommand.Invoke reg os (Some sel) = (fst (GetCount sel), []).
Proof.
  intros Hexe Hcount. unfold BascankaCommand.Invoke.
  destruct (ReadRegString_set_to _ _ _ Hexe) as [-> Hne]. rewrite Hne.
  destruct (GetCount sel) as [hr count]. simpl in Hcount. subst count.
  rewrite orb_true_r. reflexivity.
Qed.

(** C1, at the failing input. With the executable path configured, [Invoke]
    on a selection whose count query succeeds with zero items returns the
    status of the count query, [S_OK], which is not a failure status; it
    requests no launch. *)
Theorem Invoke_empty_selection_returns_S_OK :
  Spec.set_to Sample.configured "ExePath" Sample.exe
  /\ GetCount (Sample.selection_of []) = (S_OK, 0)
  /\ BascankaCommand.Invoke Sample.configured Sample.shell_ok
       (Some (Sample.selection_of [])) = (S_OK, [])
  /\ FAILED S_OK = false.
Proof.
  repeat split. discriminate.
Qed.




(** C3, counterexample. The executable path is configured and the selection
    has one item, but the item yields no file-system path: [Invoke] returns
    [E_FAIL] and requests no launch at all. *)
Lemma Invoke_pathless_item_no_launch :
  Spec.set_to Sample.configured "ExePath" Sample.exe
  /\ Spec.non_empty (Sample.selection_of [None])
  /\ BascankaCommand.Invoke Sample.configured Sample.shell_ok
       (Some (Sample.selection_of [None])) = (E_FAIL, []).
Proof.
  split; [split; [reflexivity | discriminate] |].
  split; [split; [reflexivity | split; reflexivity] |].
  reflexivity.
Qed.

(** C3, amended. With the executable path configured and a non-empty
    selection of which at least one item yields a file-system path, [Invoke]
    requests exactly one launch: of the configured executable, with the
    yielded paths, each in double quotes, consecutive ones separated by a
    single space, in selection order. *)
Theorem Invoke_launches_quoted_paths (reg : Registry) (os : Shell)
    (sel : IShellItemArray) (exePath : wstring) :
  Spec.set_to reg "ExePath" exePath ->
  Spec.non_empty sel ->
  Spec.selected_paths sel (Z.to_nat (snd (GetCount sel))) 0 <> [] ->
  snd (BascankaCommand.Invoke reg os (Some sel))
  = [mkSEI SEE_MASK_DEFAULT "open" exePath
       (Spec.quote_join (Spec.selected_paths sel (Z.to_nat (snd (GetCount sel))) 0))
       SW_SHOWNORMAL].
Proof.
  intros Hexe Hsel Hpaths.
  rewrite (Invoke_launch reg os sel exePath Hexe Hsel Hpaths). reflexivity.
Qed.

Lemma Invoke_launches_quoted_paths_witness :
  snd (BascankaCommand.Invoke Sample.configured Sample.shell_ok
         (Some (Sample.selection_of [Some "C:\a.txt"; None; Some "D:\b c.txt"])))
  = [mkSEI SEE_MASK_DEFAULT "open" Sample.exe
       (Spec.quoted "C:\a.txt" ++ " " ++ Spec.quoted "D:\b c.txt")
       SW_SHOWNORMAL].
Proof.
  apply (Invoke_launches_quoted_paths Sample.configured Sample.shell_ok
           (Sample.selection_of [Some "C:\a.txt"; None; Some "D:\b c.txt"])
           Sample.exe).
  - split; [reflexivity | discriminate].
  - split; [reflexivity | split; reflexivity].
  - discriminate.
Defined.

(** C10, counterexample. The first of two selected items yields no path and
    is skipped, and a launch is requested all the same, for the second
    one. *)
Lemma Invoke_skipped_item_still_launches :
  Spec.yielded_path (Sample.selection_of [None; Some "C:\a.txt"]) 0 = None
  /\ BascankaCommand.Invoke Sample.configured Sample.shell_ok
       (Some (Sample.selection_of [None; Some "C:\a.txt"]))
     = (S_OK,
        [mkSEI SEE_MASK_DEFAULT "open" Sample.exe (Spec.quoted "C:\a.txt")
           SW_SHOWNORMAL]).
Proof.
  split; reflexivity.
Qed.

(** C10, amended. For a null selection [Invoke] returns [E_INVALIDARG] and
    requests no launch. An item that yields no file-system path leaves the
    argument string as it is, so the string lists the yielded paths only;
    when the executable path is configured and an item of the non-empty
    selection yields a path, the launch is still requested, with that string.
    For a non-empty selection of which no item yields a path [Invoke]
    returns [E_FAIL] and requests no launch. *)
Theorem Invoke_null_skipped_pathless (reg : Registry) (os : Shell) :
  BascankaCommand.Invoke reg os None = (E_INVALIDARG, [])
  /\ (forall (sel : IShellItemArray) (i : DWORD) (args : wstring),
      Spec.yielded_path sel i = None ->
      BascankaCommand.Invoke_item sel i args = args)
  /\ (forall (sel : IShellItemArray) (n : nat),
      BascankaCommand.Invoke_loop sel n 0 EmptyString
      = Spec.quote_join (Spec.selected_paths sel n 0))
  /\ (forall (sel : IShellItemArray) (exePath : wstring),
      Spec.set_to reg "ExePath" exePath ->
      Spec.non_empty sel ->
      Spec.selected_paths sel (Z.to_nat (snd (GetCount sel))) 0 <> [] ->
      snd (BascankaCommand.Invoke reg os (Some sel))
      = [mkSEI SEE_MASK_DEFAULT "open" exePath
           (Spec.quote_join
              (Spec.selected_paths sel (Z.to_nat (snd (GetCount sel))) 0))
           SW_SHOWNORMAL])
  /\ (forall sel : IShellItemArray,
      Spec.non_empty sel ->
      Spec.selected_paths sel (Z.to_nat (snd (GetCount sel))) 0 = [] ->
      BascankaCommand.Invoke reg os (Some sel) = (E_FAIL, [])).
Proof.
  split; [reflexivity |].
  split; [| split; [| split]].
  - intros sel i args Hnone. rewrite Invoke_item_yielded, Hnone. reflexivity.
  - intros sel n. apply Invoke_loop_quote_join.
  - intros sel exePath Hexe Hsel Hpaths.
    rewrite (Invoke_launch reg os sel exePath Hexe Hsel Hpaths). reflexivity.
  - intros sel [Hhr Hcount] Hpaths. unfold BascankaCommand.Invoke.
    destruct (empty (BascankaCommand.ReadRegString reg "ExePath")); [reflexivity |].
    destruct (GetCount sel) as [hr count]. simpl in Hhr, Hcount, Hpaths.
    assert (Hf : FAILED hr = false).
    { unfold SUCCEEDED in Hhr. unfold FAILED.
      apply Z.leb_le in Hhr. apply Z.ltb_ge. lia. }
    assert (Hz : (count =? 0) = false) by (apply Z.eqb_neq; lia).
    rewrite Hf, Hz. simpl orb. cbv iota.
    rewrite Invoke_loop_quote_join, Hpaths. reflexivity.
Qed.

Lemma Invoke_null_skipped_pathless_witness :
  BascankaCommand.Invoke_item (Sample.selection_of [None; Some "C:\a.txt"]) 0
    (Spec.quoted "C:\z.txt") = Spec.quoted "C:\z.txt"
  /\ snd (BascankaCommand.Invoke Sample.configured Sample.shell_ok
            (Some (Sample.selection_of [None; Some "C:\a.txt"])))
     = [mkSEI SEE_MASK_DEFAULT "open" Sample.exe (Spec.quoted "C:\a.txt")
          SW_SHOWNORMAL]
  /\ BascankaCommand.Invoke Sample.configured Sample.shell_ok
       (Some (Sample.selection_of [None; None])) = (E_FAIL, []).
Proof.
  pose proof (Invoke_null_skipped_pathless Sample.configured Sample.shell_ok)
    as [_ [Hskip [_ [Hlaunch Hnone]]]].
  split; [| split].
  - apply Hskip. reflexivity.
  - apply (Hlaunch (Sample.selection_of [None; Some "C:\a.txt"]) Sample.exe).
    + split; [reflexivity | discriminate].
    + split; [reflexivity | split; reflexivity].
    + discriminate.
  - apply Hnone.
    + split; [reflexivity | split; reflexivity].
    + reflexivity.
Defined.

(** ** When the configuration is read *)

Lemma same_settings_ReadRegString (r1 r2 : Registry) (valueName : wstring) :
  Session.same_settings r1 r2 ->
  In valueName ["DisplayName"; "ExePath"; "IconPath"] ->
  BascankaCommand.ReadRegString r1 valueName
  = BascankaCommand.ReadRegString r2 valueName.
Proof.
  intros [Hopen Hquery] Hin. unfold BascankaCommand.ReadRegString.
  change (2 * 1024) with 2048.
  specialize (Hquery valueName 2048 Hin).
  destruct (RegOpenKeyExW r1 BascankaCommand.CONFIG_REG_KEY) as [st1 k1].
  destruct (RegOpenKeyExW r2 BascankaCommand.CONFIG_REG_KEY) as [st2 k2].
  simpl in Hopen, Hquery. subst st2. rewrite Hquery. reflexivity.
Qed.

(** C2, counterexample. Two runs are loaded with the same configuration; in
    one the display name is rewritten after the load. The later [GetTitle]
    calls of the two runs return different titles. *)
Lemma config_change_after_load_changes_title :
  Session.at_load Sample.run_unchanged = Session.at_load Sample.run_changed
  /\ Session.respond Sample.ole_none Sample.shell_ok 0 Sample.run_unchanged
       (Session.ReqGetTitle None)
     = (S_OK, Some "Edit with Bascanka 2", [])
  /\ Session.respond Sample.ole_none Sample.shell_ok 0 Sample.run_changed
       (Session.ReqGetTitle None)
     = (S_OK, Some "Open in editor", []).
Proof.
  repeat split.
Qed.

(** C2, amended. The display label, the executable path and the icon path
    are read from the registry at each call: for any two runs whose persisted
    configuration agrees at the time of a [GetTitle], [GetIcon] or [Invoke]
    call, whatever it was at load time, the call produces the same result. *)
Theorem response_follows_settings_at_call (ole : Dll.Ole) (os : Shell)
    (hModule : Z) (r1 r2 : Session.run) (req : Session.request) :
  Session.same_settings (Session.at_call r1) (Session.at_call r2) ->
  Session.respond ole os hModule r1 req = Session.respond ole os hModule r2 req.
Proof.
  intros Hsame. unfold Session.respond, Session.serve.
  assert (Hread : forall valueName,
             In valueName ["DisplayName"; "ExePath"; "IconPath"] ->
             BascankaCommand.ReadRegString (Session.at_call r1) valueName
             = BascankaCommand.ReadRegString (Session.at_call r2) valueName)
    by (intros valueName Hin; now apply same_settings_ReadRegString).
  destruct req as [sel | sel | sel].
  - unfold BascankaCommand.GetTitle.
    rewrite (Hread "DisplayName") by (simpl; auto). reflexivity.
  - unfold BascankaCommand.GetIcon.
    rewrite (Hread "IconPath") by (simpl; auto).
    rewrite (Hread "ExePath") by (simpl; auto). reflexivity.
  - unfold BascankaCommand.Invoke. destruct sel as [sel |]; [| reflexivity].
    rewrite (Hread "ExePath") by (simpl; auto). reflexivity.
Qed.

Lemma response_follows_settings_at_call_witness :
  Session.respond Sample.ole_none Sample.shell_ok 0
    (Session.mkRun Sample.configured Sample.reconfigured) (Session.ReqGetTitle None)
  = Session.respond Sample.ole_none Sample.shell_ok 0
      (Session.mkRun Sample.no_registry Sample.reconfigured) (Session.ReqGetTitle None).
Proof.
  apply (response_follows_settings_at_call Sample.ole_none Sample.shell_ok 0
           (Session.mkRun Sample.configured Sample.reconfigured)
           (Session.mkRun Sample.no_registry Sample.reconfigured)
           (Session.ReqGetTitle None)).
  split; [reflexivity | intros valueName cbData Hin; reflexivity].
Defined.

(** ** Class objects *)

Lemma bytes_eqb_eq (a b : list Z) : bytes_eqb a b = true <-> a = b.
Proof.
  revert b. induction a as [| x a IH]; intros [| y b]; simpl;
    try (split; [discriminate | discriminate]); [tauto |].
  rewrite andb_true_iff, Z.eqb_eq, IH. split.
  - intros [-> ->]. reflexivity.
  - intros E. injection E as -> ->. tauto.
Qed.

Lemma IsEqualGUID_eq (a b : GUID) : IsEqualGUID a b = true <-> a = b.
Proof.
  unfold IsEqualGUID. destruct a as [a1 a2 a3 a4], b as [b1 b2 b3 b4]. simpl.
  rewrite !andb_true_iff, !Z.eqb_eq, bytes_eqb_eq. split.
  - intros [[[-> ->] ->] ->]. reflexivity.
  - intros E. injection E as -> -> -> ->. tauto.
Qed.

(** An identifier that is loaded is not read again. *)
Lemma reload_loaded (ole : Dll.Ole) (reg : Registry) (g : Dll.globals) :
  Dll.g_CLSID_BascankaCommand g <> GUID_NULL -> Dll.reload ole reg g = g.
Proof.
  intros Hloaded. unfold Dll.reload.
  destruct (IsEqualGUID (Dll.g_CLSID_BascankaCommand g) GUID_NULL) eqn:E;
    [| reflexivity].
  apply IsEqualGUID_eq in E. contradiction.
Qed.

Lemma ReadCLSIDFromRegistry_refs (ole : Dll.Ole) (reg : Registry) (g : Dll.globals) :
  Dll.g_dllRefCount (snd (Dll.ReadCLSIDFromRegistry ole reg g)) = Dll.g_dllRefCount g.
Proof.
  unfold Dll.ReadCLSIDFromRegistry.
  destruct (RegOpenKeyExW reg _) as [st hKey].
  destruct (negb (st =? ERROR_SUCCESS)); [reflexivity |].
  destruct (negb _ || negb _); [reflexivity |].
  destruct (Dll.CLSIDFromString ole _) as [hr clsid]. reflexivity.
Qed.

(** With an identifier loaded, a request for another class is refused and
    the globals stay as they are. *)
Lemma DllGetClassObject_other_class (ole : Dll.Ole) (reg : Registry)
    (alloc : bool) (g : Dll.globals) (rclsid riid : GUID) (slot : PVOID) :
  Dll.g_CLSID_BascankaCommand g <> GUID_NULL ->
  rclsid <> Dll.g_CLSID_BascankaCommand g ->
  Dll.DllGetClassObject ole reg alloc g rclsid riid (Some slot)
  = (CLASS_E_CLASSNOTAVAILABLE, Some nullptr, None, g, []).
Proof.
  intros Hloaded Hne. unfold Dll.DllGetClassObject.
  rewrite (reload_loaded ole reg g Hloaded).
  destruct (IsEqualGUID rclsid _) eqn:E; [| reflexivity].
  apply IsEqualGUID_eq in E. contradiction.
Qed.

(** C9. [DllGetClassObject], called with a non-null output pointer and a
    class identifier other than the loaded component identifier (the global,
    read again from the registry when it is still null), returns
    [CLASS_E_CLASSNOTAVAILABLE], leaves null in the output and constructs no
    factory. [CreateInstance], called with a non-null outer object, returns
    [CLASS_E_NOAGGREGATION] and constructs no command object. *)
Theorem class_not_available_no_aggregation :
  (forall (ole : Dll.Ole) (reg : Registry) (alloc : bool) (g : Dll.globals)
          (rclsid riid : GUID) (slot : PVOID),
      rclsid <> Dll.g_CLSID_BascankaCommand (Dll.reload ole reg g) ->
      Dll.DllGetClassObject ole reg alloc g rclsid riid (Some slot)
      = (CLASS_E_CLASSNOTAVAILABLE, Some nullptr, None, Dll.reload ole reg g, [])
      /\ Dll.g_dllRefCount (Dll.reload ole reg g) = Dll.g_dllRefCount g)
  /\ (forall (alloc : bool) (riid : GUID) (ppv : out_ptr PVOID),
      ClassFactory.CreateInstance alloc pObject riid ppv
      = (CLASS_E_NOAGGREGATION, ppv, None, [])).
Proof.
  split.
  - intros ole reg alloc g rclsid riid slot Hne. split.
    + unfold Dll.DllGetClassObject.
      destruct (IsEqualGUID rclsid _) eqn:E; [| reflexivity].
      apply IsEqualGUID_eq in E. contradiction.
    + unfold Dll.reload. destruct (IsEqualGUID _ GUID_NULL); [| reflexivity].
      apply ReadCLSIDFromRegistry_refs.
  - intros alloc riid ppv. reflexivity.
Qed.

Lemma class_not_available_no_aggregation_witness :
  Dll.DllGetClassObject Sample.ole_none Sample.configured true Dll.initial
    IID_IExplorerCommand IID_IClassFactory (Some pObject)
  = (CLASS_E_CLASSNOTAVAILABLE, Some nullptr, None,
     Dll.reload Sample.ole_none Sample.configured Dll.initial, []).
Proof.
  apply (proj1 class_not_available_no_aggregation
           Sample.ole_none Sample.configured true Dll.initial
           IID_IExplorerCommand IID_IClassFactory pObject).
  discriminate.
Defined.

(** ** Reference counts *)

Section RefCounting.

Import Lifetime.

Context {T : Type} {RC : RefCounted T}.

(** What [AddRef] and [Release] of the two classes have in common. *)
Hypothesis count_addref :
  forall o : T, count (addref o) = InterlockedIncrement (count o).
Hypothesis release_deletes :
  forall o : T, release o = None <-> InterlockedDecrement (count o) = 0.
Hypothesis count_release :
  forall o o' : T, release o = Some o' -> count o' = InterlockedDecrement (count o).

(** While no more than [LONG_MAX] references are held, the counter of a live
    object is the number of references held, and the object is deleted by
    the [Release] that gives up the last one. *)
Lemma run_symmetric (cs : list ref_call) :
  forall (k : Z) (o : T),
    count o = k -> 0 < k ->
    symmetric k cs = true -> within_LONG k cs = true ->
    match run (Live o) cs with
    | Some (Live o') => count o' = held k cs /\ 0 < count o'
    | Some Destroyed => held k cs = 0
    | None => False
    end.
Proof.
  induction cs as [| c cs IH]; intros k o Hcount Hk Hsym Hbound.
  - simpl. unfold held. simpl. lia.
  - simpl in Hsym, Hbound.
    apply andb_true_iff in Hsym as [_ Hsym].
    apply andb_true_iff in Hbound as [Hle Hbound].
    apply Z.leb_le in Hle. unfold LONG_MAX in Hle.
    assert (Hnext : held_after k c <= LONG_MAX).
    { destruct cs; simpl in Hbound.
      - now apply Z.leb_le in Hbound.
      - apply andb_true_iff in Hbound as [Hb _]. now apply Z.leb_le in Hb. }
    unfold LONG_MAX in Hnext.
    destruct c; simpl in Hnext; cbn [run step].
    + change (held k (CallAddRef :: cs)) with (held (k + 1) cs).
      apply IH; try assumption; [| lia].
      rewrite count_addref, Hcount. unfold InterlockedIncrement.
      apply to_LONG_id. lia.
    + change (held k (CallRelease :: cs)) with (held (k - 1) cs).
      assert (Hdec : InterlockedDecrement (count o) = k - 1).
      { rewrite Hcount. unfold InterlockedDecrement. apply to_LONG_id. lia. }
      destruct (release o) as [o' |] eqn:Hrel.
      * assert (Hk' : k - 1 <> 0).
        { intros Hz. rewrite <- Hdec in Hz. apply release_deletes in Hz.
          congruence. }
        apply IH; try assumption; [| lia].
        rewrite (count_release _ _ Hrel). exact Hdec.
      * apply release_deletes in Hrel. rewrite Hdec in Hrel.
        destruct cs as [| c' cs'].
        -- simpl. unfold held. simpl. exact Hrel.
        -- simpl in Hsym. rewrite Hrel in Hsym. simpl in Hsym. discriminate.
Qed.

End RefCounting.

Lemma symmetric_prefix (p q : list Lifetime.ref_call) :
  forall k : Z,
    Lifetime.symmetric k (p ++ q)%list = true -> Lifetime.symmetric k p = true.
Proof.
  induction p as [| c p IH]; intros k H; simpl in *; [reflexivity |].
  apply andb_true_iff in H as [Hk H]. rewrite Hk. simpl. now apply IH.
Qed.

Lemma within_LONG_head (cs : list Lifetime.ref_call) (k : Z) :
  Lifetime.within_LONG k cs = true -> (k <=? LONG_MAX) = true.
Proof.
  destruct cs; simpl; intros H; [exact H |].
  now apply andb_true_iff in H as [H _].
Qed.

Lemma within_LONG_prefix (p q : list Lifetime.ref_call) :
  forall k : Z,
    Lifetime.within_LONG k (p ++ q)%list = true -> Lifetime.within_LONG k p = true.
Proof.
  induction p as [| c p IH]; intros k H.
  - simpl. now apply within_LONG_head in H.
  - simpl in *. apply andb_true_iff in H as [Hk H]. rewrite Hk. simpl. now apply IH.
Qed.

Lemma BascankaCommand_Release_deletes (o : BascankaCommand.t) :
  snd (BascankaCommand.Release o) = None
  <-> InterlockedDecrement (BascankaCommand.m_refCount o) = 0.
Proof.
  unfold BascankaCommand.Release. simpl.
  destruct (InterlockedDecrement (BascankaCommand.m_refCount o) =? 0) eqn:E.
  - apply Z.eqb_eq in E. tauto.
  - apply Z.eqb_neq in E. split; [discriminate | contradiction].
Qed.

Lemma ClassFactory_Release_deletes (s : ClassFactory.t * LONG) :
  Lifetime.release s = None
  <-> InterlockedDecrement (ClassFactory.m_refCount (fst s)) = 0.
Proof.
  simpl. unfold ClassFactory.Release.
  destruct (InterlockedDecrement (ClassFactory.m_refCount (fst s)) =? 0) eqn:E.
  - apply Z.eqb_eq in E. tauto.
  - apply Z.eqb_neq in E. split; [discriminate | contradiction].
Qed.

(** A factory's [Release] takes the module's count down exactly when it
    deletes the factory. *)
Lemma ClassFactory_Release_dll_count (this : ClassFactory.t) (g : LONG) :
  snd (ClassFactory.Release this g)
  = match snd (fst (ClassFactory.Release this g)) with
    | None => InterlockedDecrement g
    | Some _ => g
    end.
Proof.
  unfold ClassFactory.Release.
  destruct (InterlockedDecrement (ClassFactory.m_refCount this) =? 0); reflexivity.
Qed.

Lemma run_AddRefs (n : nat) :
  forall o : BascankaCommand.t,
    Lifetime.run (Lifetime.Live o) (repeat Lifetime.CallAddRef (S n))
    = Some (Lifetime.Live
              (BascankaCommand.mk
                 (to_LONG (BascankaCommand.m_refCount o + Z.of_nat (S n))))).
Proof.
  induction n as [| n IH]; intros o.
  - reflexivity.
  - change (repeat Lifetime.CallAddRef (S (S n)))
      with (Lifetime.CallAddRef :: repeat Lifetime.CallAddRef (S n)).
    cbn [Lifetime.run Lifetime.step]. rewrite IH.
    do 3 f_equal. simpl Lifetime.addref. unfold BascankaCommand.AddRef.
    cbn [snd BascankaCommand.m_refCount]. unfold InterlockedIncrement.
    rewrite to_LONG_idem_add. f_equal. lia.
Qed.

Lemma symmetric_AddRefs (n : nat) :
  forall k : Z,
    0 < k -> Lifetime.symmetric k (repeat Lifetime.CallAddRef n) = true.
Proof.
  induction n as [| n IH]; intros k Hk; simpl; [reflexivity |].
  apply andb_true_iff. split; [now apply Z.ltb_lt |]. apply IH. lia.
Qed.

(** C7, counterexample. [LONG_MAX] calls of [AddRef] on a new command object
    are symmetric calls (there is no [Release] among them), and they leave
    the counter at the negative value -2^31. *)
Lemma refcount_wraps_negative :
  Lifetime.symmetric 1 Sample.LONG_MAX_AddRefs = true
  /\ exists o : BascankaCommand.t,
      Lifetime.run (Lifetime.Live BascankaCommand.new) Sample.LONG_MAX_AddRefs
      = Some (Lifetime.Live o)
      /\ BascankaCommand.m_refCount o = - 2 ^ 31.
Proof.
  unfold Sample.LONG_MAX_AddRefs. split.
  - apply symmetric_AddRefs. lia.
  - assert (Hn : Z.of_nat (Z.to_nat LONG_MAX) = LONG_MAX)
      by (apply Z2Nat.id; discriminate).
    destruct (Z.to_nat LONG_MAX) as [| n]; [discriminate Hn |].
    rewrite run_AddRefs. eexists. split; [reflexivity |].
    cbn [BascankaCommand.m_refCount BascankaCommand.new]. rewrite Hn. reflexivity.
Qed.

(** C7, amended. Take symmetric calls on a new command object, or on a new
    factory, during which no more than [LONG_MAX] references are held. After
    every prefix of the calls the object is either live, with a positive
    counter that equals the number of references held, or deleted, and it is
    deleted exactly when the number of references held is zero. *)
Theorem refcount_lifetime (prefix rest : list Lifetime.ref_call) :
  Lifetime.symmetric 1 (prefix ++ rest)%list = true ->
  Lifetime.within_LONG 1 (prefix ++ rest)%list = true ->
  match Lifetime.run (Lifetime.Live BascankaCommand.new) prefix with
  | Some (Lifetime.Live o) =>
      BascankaCommand.m_refCount o = Lifetime.held 1 prefix
      /\ 0 < BascankaCommand.m_refCount o
  | Some Lifetime.Destroyed => Lifetime.held 1 prefix = 0
  | None => False
  end
  /\ forall g_dllRefCount : LONG,
      match Lifetime.run (Lifetime.Live (ClassFactory.new g_dllRefCount)) prefix with
      | Some (Lifetime.Live (o, _)) =>
          ClassFactory.m_refCount o = Lifetime.held 1 prefix
          /\ 0 < ClassFactory.m_refCount o
      | Some Lifetime.Destroyed => Lifetime.held 1 prefix = 0
      | None => False
      end.
Proof.
  intros Hsym Hbound.
  apply symmetric_prefix in Hsym. apply within_LONG_prefix in Hbound.
  split.
  - assert (Hrel : forall o o' : BascankaCommand.t,
               Lifetime.release o = Some o' ->
               Lifetime.count o' = InterlockedDecrement (Lifetime.count o)).
    { intros o o' Hrel. simpl in Hrel. unfold BascankaCommand.Release in Hrel.
      simpl in Hrel. destruct (_ =? 0) in Hrel; [discriminate |].
      injection Hrel as <-. reflexivity. }
    exact (run_symmetric (T := BascankaCommand.t) (fun o => eq_refl)
             BascankaCommand_Release_deletes Hrel prefix 1 BascankaCommand.new
             eq_refl ltac:(lia) Hsym Hbound).
  - intros g.
    pose proof (run_symmetric (T := ClassFactory.t * LONG)) as Hrun.
    specialize (Hrun (fun s => eq_refl) ClassFactory_Release_deletes).
    assert (Hrel : forall o o' : ClassFactory.t * LONG,
               Lifetime.release o = Some o' ->
               Lifetime.count o' = InterlockedDecrement (Lifetime.count o)).
    { intros o o' Hrel. simpl in Hrel. unfold ClassFactory.Release in Hrel.
      destruct (_ =? 0) in Hrel; [discriminate |].
      injection Hrel as <-. reflexivity. }
    specialize (Hrun Hrel prefix 1 (ClassFactory.new g) eq_refl ltac:(lia) Hsym Hbound).
    destruct (Lifetime.run (Lifetime.Live (ClassFactory.new g)) prefix)
      as [[[o g'] |] |]; exact Hrun.
Qed.

Lemma refcount_lifetime_witness :
  match Lifetime.run (Lifetime.Live BascankaCommand.new)
          [Lifetime.CallAddRef; Lifetime.CallRelease; Lifetime.CallRelease] with
  | Some (Lifetime.Live o) =>
      BascankaCommand.m_refCount o
      = Lifetime.held 1 [Lifetime.CallAddRef; Lifetime.CallRelease; Lifetime.CallRelease]
      /\ 0 < BascankaCommand.m_refCount o
  | Some Lifetime.Destroyed =>
      Lifetime.held 1 [Lifetime.CallAddRef; Lifetime.CallRelease; Lifetime.CallRelease] = 0
  | None => False
  end.
Proof.
  apply (proj1 (refcount_lifetime
                  [Lifetime.CallAddRef; Lifetime.CallRelease; Lifetime.CallRelease]
                  [] eq_refl eq_refl)).
Defined.

(** * Further properties of the code *)

(** ** 32-bit arithmetic *)

Lemma to_LONG_range (z : Z) : - 2 ^ 31 <= to_LONG z < 2 ^ 31.
Proof.
  unfold to_LONG.
  assert (0 <= (z + 2 ^ 31) mod 2 ^ 32 < 2 ^ 32) by (apply Z.mod_pos_bound; lia).
  lia.
Qed.

Lemma Interlocked_round_trip (x : LONG) :
  - 2 ^ 31 <= x < 2 ^ 31 -> InterlockedDecrement (InterlockedIncrement x) = x.
Proof.
  intros Hx. unfold InterlockedDecrement, InterlockedIncrement.
  replace (to_LONG (x + 1) - 1) with (to_LONG (x + 1) + - 1) by lia.
  rewrite to_LONG_idem_add.
  replace (x + 1 + - 1) with x by lia. now apply to_LONG_id.
Qed.

Lemma Interlocked_round_trip_back (x : LONG) :
  - 2 ^ 31 <= x < 2 ^ 31 -> InterlockedIncrement (InterlockedDecrement x) = x.
Proof.
  intros Hx. unfold InterlockedDecrement, InterlockedIncrement.
  rewrite to_LONG_idem_add.
  replace (x - 1 + 1) with x by lia. now apply to_LONG_id.
Qed.

Lemma to_ULONG_zero (r : LONG) : - 2 ^ 31 <= r < 2 ^ 31 -> to_ULONG r = 0 <-> r = 0.
Proof.
  intros Hr. unfold to_ULONG. split.
  - intros Hmod. destruct (Z.lt_ge_cases r 0) as [Hneg | Hpos].
    + replace r with (r + 2 ^ 32 + -1 * 2 ^ 32) in Hmod by lia.
      rewrite Z.mod_add in Hmod by lia.
      rewrite Z.mod_small in Hmod by lia. lia.
    + rewrite Z.mod_small in Hmod by lia. exact Hmod.
  - intros ->. reflexivity.
Qed.

(** ** [IUnknown] of the two classes *)

(** [Release] returns zero exactly when it deletes the object, for a command
    object and for a factory; a factory's [Release] takes [g_dllRefCount]
    down exactly then. *)
Theorem Release_returns_zero_iff_deleted :
  (forall this : BascankaCommand.t,
      fst (BascankaCommand.Release this) = 0
      <-> snd (BascankaCommand.Release this) = None)
  /\ (forall (this : ClassFactory.t) (g_dllRefCount : LONG),
      (fst (fst (ClassFactory.Release this g_dllRefCount)) = 0
       <-> snd (fst (ClassFactory.Release this g_dllRefCount)) = None)
      /\ snd (ClassFactory.Release this g_dllRefCount)
         = if fst (fst (ClassFactory.Release this g_dllRefCount)) =? 0
           then InterlockedDecrement g_dllRefCount
           else g_dllRefCount).
Proof.
  split.
  - intros this. unfold BascankaCommand.Release. cbn [fst snd].
    rewrite to_ULONG_zero by apply to_LONG_range.
    destruct (InterlockedDecrement (BascankaCommand.m_refCount this) =? 0) eqn:E.
    + apply Z.eqb_eq in E. tauto.
    + apply Z.eqb_neq in E. split; [contradiction | discriminate].
  - intros this g. unfold ClassFactory.Release.
    pose proof (to_ULONG_zero (InterlockedDecrement (ClassFactory.m_refCount this))
                  (to_LONG_range _)) as Hzero.
    destruct (InterlockedDecrement (ClassFactory.m_refCount this) =? 0) eqn:E;
      cbn [fst snd].
    + apply Z.eqb_eq in E. split; [tauto |].
      rewrite (proj2 Hzero E). reflexivity.
    + apply Z.eqb_neq in E. split; [split; [tauto | discriminate] |].
      destruct (to_ULONG _ =? 0) eqn:E'; [| reflexivity].
      apply Z.eqb_eq in E'. tauto.
Qed.

(** [AddRef] followed by [Release] gives back the object as it was, and the
    [Release] returns the count the object had, for every counter in the
    range of [LONG] other than zero; at [LONG_MAX] the counter wraps and
    comes back. A factory keeps [g_dllRefCount] meanwhile. *)
Theorem AddRef_Release_round_trip (c : LONG) (g_dllRefCount : LONG) :
  - 2 ^ 31 <= c < 2 ^ 31 ->
  c <> 0 ->
  BascankaCommand.Release (snd (BascankaCommand.AddRef (BascankaCommand.mk c)))
  = (to_ULONG c, Some (BascankaCommand.mk c))
  /\ ClassFactory.Release (snd (ClassFactory.AddRef (ClassFactory.mk c))) g_dllRefCount
     = (to_ULONG c, Some (ClassFactory.mk c), g_dllRefCount).
Proof.
  intros Hc Hnz.
  unfold BascankaCommand.Release, BascankaCommand.AddRef,
    ClassFactory.Release, ClassFactory.AddRef.
  cbn [fst snd BascankaCommand.m_refCount ClassFactory.m_refCount].
  rewrite (Interlocked_round_trip c Hc).
  apply Z.eqb_neq in Hnz. rewrite Hnz. split; reflexivity.
Qed.

Lemma AddRef_Release_round_trip_witness :
  BascankaCommand.Release
    (snd (BascankaCommand.AddRef (BascankaCommand.mk LONG_MAX)))
  = (to_ULONG LONG_MAX, Some (BascankaCommand.mk LONG_MAX))
  /\ ClassFactory.Release (snd (ClassFactory.AddRef (ClassFactory.mk LONG_MAX))) 1
     = (to_ULONG LONG_MAX, Some (ClassFactory.mk LONG_MAX), 1).
Proof.
  apply (AddRef_Release_round_trip LONG_MAX 1).
  - split; [discriminate | reflexivity].
  - discriminate.
Defined.

(** [QueryInterface] of a command object, called with a non-null output
    pointer, succeeds exactly for [IID_IUnknown] and [IID_IExplorerCommand]:
    it then stores the object and takes one reference; for every other
    interface it returns [E_NOINTERFACE], stores null and leaves the object
    as it is. With a null output pointer it returns [E_POINTER] and leaves
    the object as it is. *)
Theorem BascankaCommand_QueryInterface_interfaces (this : BascankaCommand.t)
    (riid : GUID) :
  (forall slot : PVOID,
      (riid = IID_IUnknown \/ riid = IID_IExplorerCommand ->
       BascankaCommand.QueryInterface this riid (Some slot)
       = (S_OK, Some pObject,
          BascankaCommand.mk (InterlockedIncrement (BascankaCommand.m_refCount this))))
      /\ (riid <> IID_IUnknown -> riid <> IID_IExplorerCommand ->
          BascankaCommand.QueryInterface this riid (Some slot)
          = (E_NOINTERFACE, Some nullptr, this)))
  /\ BascankaCommand.QueryInterface this riid None = (E_POINTER, None, this).
Proof.
  split; [| reflexivity].
  intros slot. unfold BascankaCommand.QueryInterface. split.
  - intros [-> | ->]; reflexivity.
  - intros H1 H2.
    destruct (IsEqualGUID riid IID_IUnknown) eqn:E1;
      [apply IsEqualGUID_eq in E1; contradiction |].
    destruct (IsEqualGUID riid IID_IExplorerCommand) eqn:E2;
      [apply IsEqualGUID_eq in E2; contradiction |].
    reflexivity.
Qed.

Lemma BascankaCommand_QueryInterface_interfaces_witness :
  BascankaCommand.QueryInterface BascankaCommand.new IID_IExplorerCommand (Some nullptr)
  = (S_OK, Some pObject, BascankaCommand.mk 2)
  /\ BascankaCommand.QueryInterface BascankaCommand.new IID_IClassFactory (Some pObject)
     = (E_NOINTERFACE, Some nullptr, BascankaCommand.new).
Proof.
  split.
  - apply (proj1 (proj1 (BascankaCommand_QueryInterface_interfaces
                           BascankaCommand.new IID_IExplorerCommand) nullptr)).
    right. reflexivity.
  - apply (proj2 (proj1 (BascankaCommand_QueryInterface_interfaces
                           BascankaCommand.new IID_IClassFactory) pObject));
      discriminate.
Defined.

(** [QueryInterface] of a factory, called with a non-null output pointer,
    succeeds exactly for [IID_IUnknown] and [IID_IClassFactory]; otherwise it
    behaves as the one of a command object. *)
Theorem ClassFactory_QueryInterface_interfaces (this : ClassFactory.t)
    (riid : GUID) :
  (forall slot : PVOID,
      (riid = IID_IUnknown \/ riid = IID_IClassFactory ->
       ClassFactory.QueryInterface this riid (Some slot)
       = (S_OK, Some pObject,
          ClassFactory.mk (InterlockedIncrement (ClassFactory.m_refCount this))))
      /\ (riid <> IID_IUnknown -> riid <> IID_IClassFactory ->
          ClassFactory.QueryInterface this riid (Some slot)
          = (E_NOINTERFACE, Some nullptr, this)))
  /\ ClassFactory.QueryInterface this riid None = (E_POINTER, None, this).
Proof.
  split; [| reflexivity].
  intros slot. unfold ClassFactory.QueryInterface. split.
  - intros [-> | ->]; reflexivity.
  - intros H1 H2.
    destruct (IsEqualGUID riid IID_IUnknown) eqn:E1;
      [apply IsEqualGUID_eq in E1; contradiction |].
    destruct (IsEqualGUID riid IID_IClassFactory) eqn:E2;
      [apply IsEqualGUID_eq in E2; contradiction |].
    reflexivity.
Qed.

Lemma ClassFactory_QueryInterface_interfaces_witness :
  ClassFactory.QueryInterface (ClassFactory.mk 1) IID_IClassFactory (Some nullptr)
  = (S_OK, Some pObject, ClassFactory.mk 2)
  /\ ClassFactory.QueryInterface (ClassFactory.mk 1) IID_IExplorerCommand (Some pObject)
     = (E_NOINTERFACE, Some nullptr, ClassFactory.mk 1).
Proof.
  split.
  - apply (proj1 (proj1 (ClassFactory_QueryInterface_interfaces
                           (ClassFactory.mk 1) IID_IClassFactory) nullptr)).
    right. reflexivity.
  - apply (proj2 (proj1 (ClassFactory_QueryInterface_interfaces
                           (ClassFactory.mk 1) IID_IExplorerCommand) pObject));
      discriminate.
Defined.

(** ** Creating objects *)

(** [CreateInstance] without an outer object, with an output pointer and for
    an interface the command object has, returns [S_OK], stores the object in
    the output and leaves the new command object alive with exactly one
    reference, the caller's. *)
Theorem CreateInstance_hands_out_one_reference (riid : GUID) (slot : PVOID) :
  riid = IID_IUnknown \/ riid = IID_IExplorerCommand ->
  ClassFactory.CreateInstance true nullptr riid (Some slot)
  = (S_OK, Some pObject, Some (BascankaCommand.mk 1),
     [Constructed clsBascankaCommand]).
Proof.
  intros [-> | ->]; reflexivity.
Qed.

Lemma CreateInstance_hands_out_one_reference_witness :
  ClassFactory.CreateInstance true nullptr IID_IExplorerCommand (Some nullptr)
  = (S_OK, Some pObject, Some (BascankaCommand.mk 1),
     [Constructed clsBascankaCommand]).
Proof.
  apply (CreateInstance_hands_out_one_reference IID_IExplorerCommand nullptr).
  right. reflexivity.
Defined.

(** [CreateInstance] never leaks: whatever its arguments, either it returns
    [S_OK] with the object stored in the output and alive with one
    reference, or it returns a failure status, no command object is alive
    afterwards (the one it constructed, if any, is deleted) and the output
    is as it was or holds null. *)
Theorem CreateInstance_no_leak (alloc : bool) (pUnkOuter : PVOID) (riid : GUID)
    (ppv : out_ptr PVOID) :
  let '(hr, slot, pCmd, events) :=
    ClassFactory.CreateInstance alloc pUnkOuter riid ppv in
  (hr = S_OK /\ slot = Some pObject /\ pCmd = Some (BascankaCommand.mk 1)
   /\ events = [Constructed clsBascankaCommand])
  \/ (FAILED hr = true /\ pCmd = None
      /\ (slot = ppv \/ slot = Some nullptr)
      /\ (events = []
          \/ events = [Constructed clsBascankaCommand; Deleted clsBascankaCommand])).
Proof.
  unfold ClassFactory.CreateInstance.
  destruct pUnkOuter; [| right; repeat split; auto].
  destruct alloc; [| right; repeat split; auto].
  unfold BascankaCommand.QueryInterface.
  destruct ppv as [slot |]; [| right; repeat split; auto].
  destruct (IsEqualGUID riid IID_IUnknown || IsEqualGUID riid IID_IExplorerCommand).
  - left. repeat split.
  - right. repeat split; auto.
Qed.

(** ** The class object and the module's count *)

(** [DllGetClassObject], asked for the loaded class identifier as
    [IID_IUnknown] or [IID_IClassFactory], returns [S_OK], stores the factory
    in the output, leaves the factory alive with one reference and takes
    [g_dllRefCount] up by one. *)
Theorem DllGetClassObject_hands_out_factory (ole : Dll.Ole) (reg : Registry)
    (g : Dll.globals) (rclsid riid : GUID) (slot : PVOID) :
  rclsid = Dll.g_CLSID_BascankaCommand (Dll.reload ole reg g) ->
  riid = IID_IUnknown \/ riid = IID_IClassFactory ->
  Dll.DllGetClassObject ole reg true g rclsid riid (Some slot)
  = (S_OK, Some pObject, Some (ClassFactory.mk 1),
     Dll.mkGlobals (InterlockedIncrement (Dll.g_dllRefCount g))
       (Dll.g_CLSID_BascankaCommand (Dll.reload ole reg g))
       (Dll.g_hModule (Dll.reload ole reg g)),
     [Constructed clsClassFactory]).
Proof.
  intros -> Hriid. unfold Dll.DllGetClassObject.
  assert (Hrefs : Dll.g_dllRefCount (Dll.reload ole reg g) = Dll.g_dllRefCount g).
  { unfold Dll.reload. destruct (IsEqualGUID _ GUID_NULL); [| reflexivity].
    apply ReadCLSIDFromRegistry_refs. }
  rewrite (proj2 (IsEqualGUID_eq _ _) eq_refl). cbn [negb].
  rewrite Hrefs. destruct Hriid as [-> | ->]; reflexivity.
Qed.

Lemma DllGetClassObject_hands_out_factory_witness :
  Dll.DllGetClassObject Sample.ole_none Sample.configured true
    (Dll.mkGlobals 0 IID_IExplorerCommand None) IID_IExplorerCommand
    IID_IClassFactory (Some nullptr)
  = (S_OK, Some pObject, Some (ClassFactory.mk 1),
     Dll.mkGlobals (InterlockedIncrement 0) IID_IExplorerCommand None,
     [Constructed clsClassFactory]).
Proof.
  apply (DllGetClassObject_hands_out_factory Sample.ole_none Sample.configured
           (Dll.mkGlobals 0 IID_IExplorerCommand None) IID_IExplorerCommand
           IID_IClassFactory nullptr).
  - reflexivity.
  - right. reflexivity.
Defined.

(** [DllGetClassObject] keeps the module's count in step with the factories
    it leaves alive: whatever its arguments, either it returns [S_OK], a
    factory with one reference is alive and [g_dllRefCount] is one higher, or
    it returns a failure status, no factory is alive and [g_dllRefCount] is
    as before. *)
Theorem DllGetClassObject_module_count (ole : Dll.Ole) (reg : Registry)
    (alloc : bool) (g : Dll.globals) (rclsid riid : GUID) (ppv : out_ptr PVOID) :
  - 2 ^ 31 <= Dll.g_dllRefCount g < 2 ^ 31 ->
  let '(hr, _, pFactory, g', _) :=
    Dll.DllGetClassObject ole reg alloc g rclsid riid ppv in
  (hr = S_OK /\ pFactory = Some (ClassFactory.mk 1)
   /\ Dll.g_dllRefCount g' = InterlockedIncrement (Dll.g_dllRefCount g))
  \/ (FAILED hr = true /\ pFactory = None
      /\ Dll.g_dllRefCount g' = Dll.g_dllRefCount g).
Proof.
  intros Hrange. unfold Dll.DllGetClassObject.
  destruct ppv as [slot |]; [| right; repeat split].
  assert (Hrefs : Dll.g_dllRefCount (Dll.reload ole reg g) = Dll.g_dllRefCount g).
  { unfold Dll.reload. destruct (IsEqualGUID _ GUID_NULL); [| reflexivity].
    apply ReadCLSIDFromRegistry_refs. }
  destruct (IsEqualGUID rclsid _); cbn [negb]; [| right; repeat split; exact Hrefs].
  destruct alloc; cbn [negb]; [| right; repeat split; exact Hrefs].
  rewrite Hrefs. unfold ClassFactory.new, ClassFactory.QueryInterface.
  destruct (IsEqualGUID riid IID_IUnknown || IsEqualGUID riid IID_IClassFactory).
  - left. repeat split.
  - right. cbn. repeat split.
    change (to_LONG (to_LONG (Dll.g_dllRefCount g + 1) - 1))
      with (InterlockedDecrement (InterlockedIncrement (Dll.g_dllRefCount g))).
    now apply Interlocked_round_trip.
Qed.

Lemma DllGetClassObject_module_count_witness :
  let '(hr, _, pFactory, g', _) :=
    Dll.DllGetClassObject Sample.ole_none Sample.configured true
      (Dll.mkGlobals 3 IID_IExplorerCommand None) IID_IExplorerCommand
      IID_IExplorerCommand (Some nullptr) in
  (hr = S_OK /\ pFactory = Some (ClassFactory.mk 1)
   /\ Dll.g_dllRefCount g' = InterlockedIncrement 3)
  \/ (FAILED hr = true /\ pFactory = None /\ Dll.g_dllRefCount g' = 3).
Proof.
  apply (DllGetClassObject_module_count Sample.ole_none Sample.configured true
           (Dll.mkGlobals 3 IID_IExplorerCommand None) IID_IExplorerCommand
           IID_IExplorerCommand (Some nullptr)).
  split; [discriminate | reflexivity].
Defined.

(** Once a class identifier is loaded, [DllGetClassObject] does not read the
    registry: its result is the same for every registry and every answer of
    [CLSIDFromString]. *)
Theorem DllGetClassObject_identifier_read_once (ole1 ole2 : Dll.Ole)
    (reg1 reg2 : Registry) (alloc : bool) (g : Dll.globals) (rclsid riid : GUID)
    (ppv : out_ptr PVOID) :
  Dll.g_CLSID_BascankaCommand g <> GUID_NULL ->
  Dll.DllGetClassObject ole1 reg1 alloc g rclsid riid ppv
  = Dll.DllGetClassObject ole2 reg2 alloc g rclsid riid ppv.
Proof.
  intros Hloaded. unfold Dll.DllGetClassObject.
  rewrite (reload_loaded ole1 reg1 g Hloaded), (reload_loaded ole2 reg2 g Hloaded).
  reflexivity.
Qed.

Lemma DllGetClassObject_identifier_read_once_witness :
  Dll.DllGetClassObject Sample.ole_none Sample.configured true
    (Dll.mkGlobals 0 IID_IExplorerCommand None) IID_IExplorerCommand
    IID_IClassFactory (Some nullptr)
  = Dll.DllGetClassObject Sample.ole_none Sample.no_registry true
      (Dll.mkGlobals 0 IID_IExplorerCommand None) IID_IExplorerCommand
      IID_IClassFactory (Some nullptr).
Proof.
  apply (DllGetClassObject_identifier_read_once Sample.ole_none Sample.ole_none
           Sample.configured Sample.no_registry true
           (Dll.mkGlobals 0 IID_IExplorerCommand None) IID_IExplorerCommand
           IID_IClassFactory (Some nullptr)).
  discriminate.
Defined.


(** What [ReadCLSIDFromRegistry] does when the key does not open, the query
    for [CLSID] fails or the value is not a [REG_SZ] string: it reports
    failure and leaves the globals as they are. *)
Lemma ReadCLSIDFromRegistry_unread (ole : Dll.Ole) (reg : Registry) (g : Dll.globals) :
  fst (RegOpenKeyExW reg "Software\Bascanka\ContextMenu") <> ERROR_SUCCESS
  \/ status (snd (RegOpenKeyExW reg "Software\Bascanka\ContextMenu") "CLSID" 256)
     <> ERROR_SUCCESS
  \/ type (snd (RegOpenKeyExW reg "Software\Bascanka\ContextMenu") "CLSID" 256)
     <> REG_SZ ->
  Dll.ReadCLSIDFromRegistry ole reg g = (false, g).
Proof.
  intros H. unfold Dll.ReadCLSIDFromRegistry.
  destruct (RegOpenKeyExW reg "Software\Bascanka\ContextMenu") as [st hKey].
  cbn [fst snd] in H. change (2 * 128) with 256.
  destruct (st =? ERROR_SUCCESS) eqn:E1; [| reflexivity]. cbn [negb].
  destruct (status (hKey "CLSID" 256) =? ERROR_SUCCESS) eqn:E2; [| reflexivity].
  destruct (type (hKey "CLSID" 256) =? REG_SZ) eqn:E3; [| reflexivity].
  apply Z.eqb_eq in E1, E2, E3. tauto.
Qed.

(** [DllMain] always returns [TRUE] and never changes [g_dllRefCount]. For
    [DLL_PROCESS_ATTACH] it records the module handle; for every other reason
    it leaves the globals as they are. When the identifier cannot be read at
    attach, the load still succeeds and the identifier stays as it was. *)
Theorem DllMain_effects (ole : Dll.Ole) (reg : Registry) (g : Dll.globals)
    (hModule : Z) (ul_reason_for_call : DWORD) :
  fst (Dll.DllMain ole reg g hModule ul_reason_for_call) = true
  /\ Dll.g_dllRefCount (snd (Dll.DllMain ole reg g hModule ul_reason_for_call))
     = Dll.g_dllRefCount g
  /\ (ul_reason_for_call <> DLL_PROCESS_ATTACH ->
      snd (Dll.DllMain ole reg g hModule ul_reason_for_call) = g)
  /\ (ul_reason_for_call = DLL_PROCESS_ATTACH ->
      Dll.g_hModule (snd (Dll.DllMain ole reg g hModule ul_reason_for_call))
      = Some hModule)
  /\ (ul_reason_for_call = DLL_PROCESS_ATTACH ->
      fst (RegOpenKeyExW reg "Software\Bascanka\ContextMenu") <> ERROR_SUCCESS ->
      Dll.g_CLSID_BascankaCommand
        (snd (Dll.DllMain ole reg g hModule ul_reason_for_call))
      = Dll.g_CLSID_BascankaCommand g).
Proof.
  unfold Dll.DllMain.
  destruct (ul_reason_for_call =? DLL_PROCESS_ATTACH) eqn:E.
  - apply Z.eqb_eq in E. cbn [fst snd].
    split; [reflexivity |]. split; [| split; [| split]].
    + rewrite ReadCLSIDFromRegistry_refs. reflexivity.
    + intros Hne. contradiction.
    + intros _. unfold Dll.ReadCLSIDFromRegistry.
      destruct (RegOpenKeyExW reg _) as [st hKey].
      destruct (negb (st =? ERROR_SUCCESS)); [reflexivity |].
      destruct (negb _ || negb _); [reflexivity |].
      destruct (Dll.CLSIDFromString ole _). reflexivity.
    + intros _ Hopen. rewrite ReadCLSIDFromRegistry_unread by (left; exact Hopen).
      reflexivity.
  - apply Z.eqb_neq in E. repeat split; intros; try reflexivity; contradiction.
Qed.

Lemma DllMain_effects_witness :
  snd (Dll.DllMain Sample.ole_none Sample.no_registry Dll.initial 7 DLL_PROCESS_DETACH)
  = Dll.initial
  /\ Dll.g_hModule
       (snd (Dll.DllMain Sample.ole_none Sample.no_registry Dll.initial 7
               DLL_PROCESS_ATTACH)) = Some 7
  /\ Dll.g_CLSID_BascankaCommand
       (snd (Dll.DllMain Sample.ole_none Sample.no_registry Dll.initial 7
               DLL_PROCESS_ATTACH)) = GUID_NULL.
Proof.
  split; [| split].
  - apply (proj1 (proj2 (proj2 (DllMain_effects Sample.ole_none Sample.no_registry
                                  Dll.initial 7 DLL_PROCESS_DETACH)))).
    discriminate.
  - apply (proj1 (proj2 (proj2 (proj2 (DllMain_effects Sample.ole_none
                                         Sample.no_registry Dll.initial 7
                                         DLL_PROCESS_ATTACH))))).
    reflexivity.
  - apply (proj2 (proj2 (proj2 (proj2 (DllMain_effects Sample.ole_none
                                         Sample.no_registry Dll.initial 7
                                         DLL_PROCESS_ATTACH))))).
    + reflexivity.
    + discriminate.
Defined.







(** ** Server locks and unloading *)

(** [LockServer] always returns [S_OK]; a lock followed by an unlock, or an
    unlock followed by a lock, leaves [g_dllRefCount] as it was. While the
    module is locked, starting from a count that is not negative and below
    [LONG_MAX], [DllCanUnloadNow] answers [S_FALSE]. *)
Theorem LockServer_DllCanUnloadNow (g : Dll.globals) :
  - 2 ^ 31 <= Dll.g_dllRefCount g < 2 ^ 31 ->
  fst (ClassFactory.LockServer true (Dll.g_dllRefCount g)) = S_OK
  /\ fst (ClassFactory.LockServer false (Dll.g_dllRefCount g)) = S_OK
  /\ snd (ClassFactory.LockServer false
            (snd (ClassFactory.LockServer true (Dll.g_dllRefCount g))))
     = Dll.g_dllRefCount g
  /\ snd (ClassFactory.LockServer true
            (snd (ClassFactory.LockServer false (Dll.g_dllRefCount g))))
     = Dll.g_dllRefCount g
  /\ (0 <= Dll.g_dllRefCount g < LONG_MAX ->
      Dll.DllCanUnloadNow
        (Dll.mkGlobals (snd (ClassFactory.LockServer true (Dll.g_dllRefCount g)))
           (Dll.g_CLSID_BascankaCommand g) (Dll.g_hModule g)) = S_FALSE).
Proof.
  intros Hrange. unfold ClassFactory.LockServer. cbn [fst snd].
  split; [reflexivity |]. split; [reflexivity |].
  split; [now apply Interlocked_round_trip |].
  split; [now apply Interlocked_round_trip_back |].
  intros Hpos. unfold LONG_MAX in Hpos. unfold Dll.DllCanUnloadNow.
  cbn [Dll.g_dllRefCount]. unfold InterlockedIncrement.
  rewrite to_LONG_id by lia.
  destruct (0 <? Dll.g_dllRefCount g + 1) eqn:E; [reflexivity |].
  apply Z.ltb_ge in E. lia.
Qed.

Lemma LockServer_DllCanUnloadNow_witness :
  snd (ClassFactory.LockServer false
         (snd (ClassFactory.LockServer true (Dll.g_dllRefCount Dll.initial))))
  = Dll.g_dllRefCount Dll.initial
  /\ Dll.DllCanUnloadNow
       (Dll.mkGlobals
          (snd (ClassFactory.LockServer true (Dll.g_dllRefCount Dll.initial)))
          (Dll.g_CLSID_BascankaCommand Dll.initial) (Dll.g_hModule Dll.initial))
     = S_FALSE.
Proof.
  assert (Hrange : - 2 ^ 31 <= Dll.g_dllRefCount Dll.initial < 2 ^ 31)
    by (split; [discriminate | reflexivity]).
  pose proof (LockServer_DllCanUnloadNow Dll.initial Hrange)
    as [_ [_ [Hback [_ Hlocked]]]].
  split; [exact Hback |].
  apply Hlocked. split; [discriminate | reflexivity].
Defined.

(** ** Factories and the module's count *)




(** Command objects do not hold the module. When a host obtains the factory
    for the loaded identifier, has it create a command object and releases
    the factory, the command object is alive with one reference while
    [g_dllRefCount] is back at its value from before, so [DllCanUnloadNow]
    answers as it did before the object existed. *)
Theorem command_object_does_not_hold_module (ole : Dll.Ole) (reg : Registry)
    (g : Dll.globals) (rclsid : GUID) :
  rclsid = Dll.g_CLSID_BascankaCommand (Dll.reload ole reg g) ->
  - 2 ^ 31 <= Dll.g_dllRefCount g < 2 ^ 31 ->
  exists g' : Dll.globals,
    Hosting.create_command ole reg g rclsid = Some (BascankaCommand.mk 1, g')
    /\ Dll.g_dllRefCount g' = Dll.g_dllRefCount g
    /\ Dll.DllCanUnloadNow g' = Dll.DllCanUnloadNow g.
Proof.
  intros -> Hrange.
  assert (Hrefs : Dll.g_dllRefCount (Dll.reload ole reg g) = Dll.g_dllRefCount g).
  { unfold Dll.reload. destruct (IsEqualGUID _ GUID_NULL); [| reflexivity].
    apply ReadCLSIDFromRegistry_refs. }
  unfold Hosting.create_command, Dll.DllGetClassObject.
  rewrite (proj2 (IsEqualGUID_eq _ _) eq_refl). cbn [negb].
  rewrite Hrefs.
  cbn [ClassFactory.new ClassFactory.QueryInterface IsEqualGUID IID_IUnknown
       IID_IClassFactory Data1 Data2 Data3 Data4 bytes_eqb Z.eqb Pos.eqb andb orb
       ClassFactory.AddRef ClassFactory.m_refCount snd fst].
  change (ClassFactory.Release
            (ClassFactory.mk (InterlockedIncrement 1))
            (InterlockedIncrement (Dll.g_dllRefCount g)))
    with (1, Some (ClassFactory.mk 1), InterlockedIncrement (Dll.g_dllRefCount g)).
  change (ClassFactory.CreateInstance true nullptr IID_IExplorerCommand (Some nullptr))
    with (S_OK, Some pObject, Some (BascankaCommand.mk 1),
          [Constructed clsBascankaCommand]).
  cbv beta iota zeta.
  cbn [Dll.g_dllRefCount Dll.g_CLSID_BascankaCommand Dll.g_hModule].
  unfold ClassFactory.Release. cbn [ClassFactory.m_refCount].
  change (InterlockedDecrement 1 =? 0) with true. cbv beta iota zeta.
  rewrite (Interlocked_round_trip _ Hrange).
  eexists. split; [reflexivity |].
  split; reflexivity.
Qed.

Lemma command_object_does_not_hold_module_witness :
  exists g' : Dll.globals,
    Hosting.create_command Sample.ole_parse Sample.registered Dll.initial Sample.clsid
    = Some (BascankaCommand.mk 1, g')
    /\ Dll.g_dllRefCount g' = Dll.g_dllRefCount Dll.initial
    /\ Dll.DllCanUnloadNow g' = Dll.DllCanUnloadNow Dll.initial.
Proof.
  apply (command_object_does_not_hold_module Sample.ole_parse Sample.registered
           Dll.initial Sample.clsid).
  - reflexivity.
  - split; [discriminate | reflexivity].
Defined.

(** ** Title and icon, in every configuration *)

Lemma setting_cases (reg : Registry) (valueName : wstring) :
  Spec.missing_or_empty reg valueName
  \/ exists s : wstring, Spec.set_to reg valueName s.
Proof.
  unfold Spec.missing_or_empty, Spec.set_to.
  destruct (Spec.setting reg valueName) as [[| ch s] |].
  - left. right. reflexivity.
  - right. exists (String ch s). split; [reflexivity | discriminate].
  - left. left. reflexivity.
Qed.

Lemma set_to_not_missing (reg : Registry) (valueName s : wstring) :
  Spec.set_to reg valueName s -> ~ Spec.missing_or_empty reg valueName.
Proof.
  intros [Hs Hne] [Hm | Hm]; rewrite Hs in Hm; [discriminate |].
  injection Hm as ->. contradiction.
Qed.



(** A configured icon path is returned as it is, without an icon index
    appended, whatever the executable path is. *)
Theorem GetIcon_icon_setting_wins (reg : Registry)
    (psiItemArray : option IShellItemArray) (iconPath : wstring) :
  Spec.set_to reg "IconPath" iconPath ->
  BascankaCommand.GetIcon reg psiItemArray = (S_OK, Some iconPath).
Proof.
  intros Hicon. unfold BascankaCommand.GetIcon.
  destruct (ReadRegString_set_to _ _ _ Hicon) as [-> Hne].
  cbv zeta. rewrite Hne. rewrite Hne. reflexivity.
Qed.

Lemma GetIcon_icon_setting_wins_witness :
  BascankaCommand.GetIcon
    (Sample.registry_of [("IconPath", (REG_SZ, "C:\icons\b.ico"));
                         ("ExePath", (REG_SZ, Sample.exe))]) None
  = (S_OK, Some "C:\icons\b.ico").
Proof.
  apply (GetIcon_icon_setting_wins
           (Sample.registry_of [("IconPath", (REG_SZ, "C:\icons\b.ico"));
                                ("ExePath", (REG_SZ, Sample.exe))])
           None "C:\icons\b.ico").
  split; [reflexivity | discriminate].
Defined.


(** ** Launches, in every situation *)

(** [Invoke] requests a launch exactly when the selection is not null, the
    executable path is set, the count query does not fail, the count is not
    zero and at least one counted item yields a file-system path. *)
Theorem Invoke_launch_iff (reg : Registry) (os : Shell)
    (psiItemArray : option IShellItemArray) :
  snd (BascankaCommand.Invoke reg os psiItemArray) <> []
  <-> exists (sel : IShellItemArray) (exePath : wstring),
      psiItemArray = Some sel
      /\ Spec.set_to reg "ExePath" exePath
      /\ FAILED (fst (GetCount sel)) = false
      /\ snd (GetCount sel) <> 0
      /\ Spec.selected_paths sel (Z.to_nat (snd (GetCount sel))) 0 <> [].
Proof.
  split.
  - unfold BascankaCommand.Invoke.
    destruct psiItemArray as [sel |]; [| intros H; now contradiction H].
    destruct (setting_cases reg "ExePath") as [Hexe | [exePath Hexe]].
    + rewrite (ReadRegString_missing_or_empty _ _ Hexe).
      intros H. now contradiction H.
    + destruct (ReadRegString_set_to _ _ _ Hexe) as [-> Hne]. rewrite Hne.
      destruct (GetCount sel) as [hr count] eqn:Hcount.
      destruct (FAILED hr) eqn:Hf; [intros H; now contradiction H |].
      destruct (count =? 0) eqn:Hz; [intros H; now contradiction H |].
      cbn [orb]. rewrite Invoke_loop_quote_join.
      destruct (Spec.selected_paths sel (Z.to_nat count) 0) as [| p rest] eqn:Hp;
        [intros H; now contradiction H |].
      intros _. exists sel, exePath. rewrite Hcount. cbn [fst snd].
      apply Z.eqb_neq in Hz. rewrite Hp.
      split; [reflexivity |]. split; [exact Hexe |]. split; [exact Hf |].
      split; [exact Hz | discriminate].
  - intros (sel & exePath & -> & Hexe & Hf & Hz & Hp).
    unfold BascankaCommand.Invoke.
    destruct (ReadRegString_set_to _ _ _ Hexe) as [-> Hne]. rewrite Hne.
    destruct (GetCount sel) as [hr count]. cbn [fst snd] in Hf, Hz, Hp.
    apply Z.eqb_neq in Hz. rewrite Hf, Hz. cbn [orb].
    rewrite Invoke_loop_quote_join, (quote_join_not_empty _ Hp).
    destruct (ShellExecuteExW os _) as [[|] lastError]; discriminate.
Qed.

(** Every launch [Invoke] requests has the verb "open", the default mask
    and [SW_SHOWNORMAL]; its file is the executable path read from the
    registry, which is not empty, and its parameters are the quoted paths of
    the counted items, which are not empty either. *)
Theorem Invoke_request_shape (reg : Registry) (os : Shell)
    (psiItemArray : option IShellItemArray) (sei : SHELLEXECUTEINFOW) :
  In sei (snd (BascankaCommand.Invoke reg os psiItemArray)) ->
  fMask sei = SEE_MASK_DEFAULT /\ lpVerb sei = "open" /\ nShow sei = SW_SHOWNORMAL
  /\ lpFile sei = BascankaCommand.ReadRegString reg "ExePath"
  /\ empty (lpFile sei) = false
  /\ empty (lpParameters sei) = false
  /\ exists sel : IShellItemArray,
      psiItemArray = Some sel
      /\ lpParameters sei
         = Spec.quote_join
             (Spec.selected_paths sel (Z.to_nat (snd (GetCount sel))) 0).
Proof.
  unfold BascankaCommand.Invoke.
  destruct psiItemArray as [sel |]; [| intros []].
  destruct (empty (BascankaCommand.ReadRegString reg "ExePath")) eqn:Hexe;
    [intros [] |].
  destruct (GetCount sel) as [hr count] eqn:Hcount.
  destruct (FAILED hr || (count =? 0)); [intros [] |].
  destruct (empty (BascankaCommand.Invoke_loop sel (Z.to_nat count) 0 EmptyString))
    eqn:Hargs; [intros [] |].
  destruct (ShellExecuteExW os _) as [[|] lastError];
    cbn [negb snd In]; intros [<- | []]; cbn [fMask lpVerb nShow lpFile lpParameters];
    (repeat split; try assumption;
     exists sel; split; [reflexivity | rewrite Hcount; apply Invoke_loop_quote_join]).
Qed.

Lemma Invoke_request_shape_witness :
  fMask (mkSEI SEE_MASK_DEFAULT "open" Sample.exe (Spec.quoted "C:\a.txt") SW_SHOWNORMAL)
  = SEE_MASK_DEFAULT
  /\ lpVerb (mkSEI SEE_MASK_DEFAULT "open" Sample.exe (Spec.quoted "C:\a.txt") SW_SHOWNORMAL)
     = "open"
  /\ nShow (mkSEI SEE_MASK_DEFAULT "open" Sample.exe (Spec.quoted "C:\a.txt") SW_SHOWNORMAL)
     = SW_SHOWNORMAL
  /\ lpFile (mkSEI SEE_MASK_DEFAULT "open" Sample.exe (Spec.quoted "C:\a.txt") SW_SHOWNORMAL)
     = BascankaCommand.ReadRegString Sample.configured "ExePath"
  /\ empty (lpFile (mkSEI SEE_MASK_DEFAULT "open" Sample.exe (Spec.quoted "C:\a.txt")
                      SW_SHOWNORMAL)) = false
  /\ empty (lpParameters (mkSEI SEE_MASK_DEFAULT "open" Sample.exe
                            (Spec.quoted "C:\a.txt") SW_SHOWNORMAL)) = false
  /\ exists sel : IShellItemArray,
      Some (Sample.selection_of [Some "C:\a.txt"]) = Some sel
      /\ lpParameters (mkSEI SEE_MASK_DEFAULT "open" Sample.exe (Spec.quoted "C:\a.txt")
                         SW_SHOWNORMAL)
         = Spec.quote_join
             (Spec.selected_paths sel (Z.to_nat (snd (GetCount sel))) 0).
Proof.
  apply (Invoke_request_shape Sample.configured Sample.shell_ok
           (Some (Sample.selection_of [Some "C:\a.txt"]))
           (mkSEI SEE_MASK_DEFAULT "open" Sample.exe (Spec.quoted "C:\a.txt")
              SW_SHOWNORMAL)).
  left. reflexivity.
Defined.

(** The status after a launch request: [Invoke] returns [S_OK] exactly when
    the shell accepted the launch or refused it leaving zero as last error;
    a refused launch with any other error code gives a status other than
    [S_OK]. *)
Theorem Invoke_status_after_launch (reg : Registry) (os : Shell)
    (psiItemArray : option IShellItemArray) (sei : SHELLEXECUTEINFOW)
    (ok : BOOL) (lastError : DWORD) :
  In sei (snd (BascankaCommand.Invoke reg os psiItemArray)) ->
  ShellExecuteExW os sei = (ok, lastError) ->
  0 <= lastError < 2 ^ 32 ->
  fst (BascankaCommand.Invoke reg os psiItemArray) = S_OK
  <-> ok = true \/ lastError = 0.
Proof.
  intros Hin Hos Herr. rewrite (Invoke_launch_log _ _ _ _ Hin), Hos.
  cbn [fst snd]. destruct ok.
  - split; [intros _; left; reflexivity | reflexivity].
  - split.
    + intros Hhr. right.
      destruct (Z.eq_dec lastError 0) as [Hz | Hnz]; [exact Hz |].
      assert (Hfail : FAILED (HRESULT_FROM_WIN32 lastError) = true)
        by (apply HRESULT_FROM_WIN32_failed; lia).
      rewrite Hhr in Hfail. discriminate.
    + intros [Habs | ->]; [discriminate | reflexivity].
Qed.

Lemma Invoke_status_after_launch_witness :
  fst (BascankaCommand.Invoke Sample.configured (Sample.shell_failing 0)
         (Some (Sample.selection_of [Some "C:\a.txt"]))) = S_OK
  <-> false = true \/ 0 = 0.
Proof.
  apply (Invoke_status_after_launch Sample.configured (Sample.shell_failing 0)
           (Some (Sample.selection_of [Some "C:\a.txt"]))
           (mkSEI SEE_MASK_DEFAULT "open" Sample.exe (Spec.quoted "C:\a.txt")
              SW_SHOWNORMAL)
           false 0).
  - left. reflexivity.
  - reflexivity.
  - split; [discriminate | reflexivity].
Defined.

Lemma Invoke_loop_ext (sel1 sel2 : IShellItemArray) (n : nat) :
  forall (i : DWORD) (args : wstring),
    (forall j : DWORD, i <= j < i + Z.of_nat n -> GetItemAt sel1 j = GetItemAt sel2 j) ->
    BascankaCommand.Invoke_loop sel1 n i args
    = BascankaCommand.Invoke_loop sel2 n i args.
Proof.
  induction n as [| n IH]; intros i args Hsame; [reflexivity |].
  cbn [BascankaCommand.Invoke_loop].
  assert (Hitem : BascankaCommand.Invoke_item sel1 i args
                  = BascankaCommand.Invoke_item sel2 i args).
  { unfold BascankaCommand.Invoke_item. rewrite (Hsame i) by lia. reflexivity. }
  rewrite Hitem. apply IH. intros j Hj. apply Hsame. lia.
Qed.

(** [Invoke] asks the selection for its count and for the items at the
    indices below the count, and for nothing else: two selections that
    answer alike there give the same result and the same launch. *)
Theorem Invoke_reads_counted_items_only (reg : Registry) (os : Shell)
    (sel1 sel2 : IShellItemArray) :
  GetCount sel1 = GetCount sel2 ->
  (forall i : DWORD,
      0 <= i < snd (GetCount sel1) -> GetItemAt sel1 i = GetItemAt sel2 i) ->
  BascankaCommand.Invoke reg os (Some sel1) = BascankaCommand.Invoke reg os (Some sel2).
Proof.
  intros Hcount Hitems. unfold BascankaCommand.Invoke.
  rewrite <- Hcount. destruct (GetCount sel1) as [hr count]. cbn [snd] in Hitems.
  rewrite (Invoke_loop_ext sel1 sel2 (Z.to_nat count) 0 EmptyString).
  - reflexivity.
  - intros j Hj. apply Hitems. lia.
Qed.

Lemma Invoke_reads_counted_items_only_witness :
  BascankaCommand.Invoke Sample.configured Sample.shell_ok
    (Some (Sample.selection_of [Some "C:\a.txt"]))
  = BascankaCommand.Invoke Sample.configured Sample.shell_ok
      (Some (mkIShellItemArray (S_OK, 1)
               (GetItemAt (Sample.selection_of [Some "C:\a.txt"; Some "C:\b.txt"])))).
Proof.
  apply (Invoke_reads_counted_items_only Sample.configured Sample.shell_ok
           (Sample.selection_of [Some "C:\a.txt"])
           (mkIShellItemArray (S_OK, 1)
              (GetItemAt (Sample.selection_of [Some "C:\a.txt"; Some "C:\b.txt"])))).
  - reflexivity.
  - intros i Hi. cbn [snd GetCount Sample.selection_of List.length Z.of_nat
                      Pos.of_succ_nat] in Hi.
    assert (Hz : i = 0) by lia. rewrite Hz. reflexivity.
Defined.
